(** * The documentation-site build script, [scripts/build-site.jsx]

    A shallow embedding of the static-site build pipeline: JavaScript values
    and plain objects, the content loader, the template expander, the page
    components, the page shell and the static renderer, followed by the
    properties of the pipeline. *)

From Stdlib Require Import String Ascii List Bool Arith NArith Lia FinFun.
From Stdlib Require Import Sorted Permutation.
Import ListNotations.

Set Warnings "-register-all".

Open Scope string_scope.
Open Scope list_scope.

Infix "+:+" := String.append (at level 60, right associativity).

(** ** Exceptions

    A rejected promise and a thrown exception are both a [Throw]; the script
    has no [catch] and no rejection handler, so a [Throw] reaches the end of
    the chain it occurs in. *)

Inductive exn : Type :=
| TypeError                       (* reading a property of undefined or null *)
| ExternalError (origin : string) (* raised inside an imported library *).

Inductive result (A : Type) : Type :=
| Ok (a : A)
| Throw (e : exn).

Arguments Ok {A} a.
Arguments Throw {A} e.

Definition bind {A B : Type} (m : result A) (k : A -> result B) : result B :=
  match m with
  | Ok a => k a
  | Throw e => Throw e
  end.

Notation "x <- m ;; k" := (bind m (fun x => k))
  (at level 61, m at next level, right associativity).

(** [Array.prototype.map] with a callback that may throw: elements are
    visited left to right and the first exception ends the traversal. *)
Fixpoint mapM {A B : Type} (f : A -> result B) (l : list A) : result (list B) :=
  match l with
  | [] => Ok []
  | a :: l' =>
      b <- f a ;;
      bs <- mapM f l' ;;
      Ok (b :: bs)
  end.

(** [Promise.all]: fulfilled with every result, in the order of the
    promises, or rejected as soon as one of them is. Which rejection comes
    first among several depends on timing; the first in list order is taken. *)
Fixpoint Promise_all {A : Type} (promises : list (result A)) : result (list A) :=
  match promises with
  | [] => Ok []
  | p :: ps =>
      a <- p ;;
      rest <- Promise_all ps ;;
      Ok (a :: rest)
  end.

(** ** JavaScript values

    Numbers are kept as their canonical decimal text (what [Number::toString]
    prints), which is all the script ever does with one.  [VBuiltin] stands
    for the objects a plain object inherits from [Object.prototype]. *)

Inductive value : Type :=
| VUndefined
| VNull
| VBool (b : bool)
| VNum (literal : string)
| VStr (s : string)
| VArr (items : list value)
| VObj (props : list (string * value))
| VBuiltin (name : string).

(** A plain object: its own enumerable string-keyed properties, in the
    enumeration order of [Object.keys]. Keys are pairwise distinct. *)
Definition obj : Type := list (string * value).

Definition Object_keys (o : obj) : list string := map fst o.
Definition Object_values (o : obj) : list value := map snd o.

Definition wellFormed (o : obj) : Prop := NoDup (Object_keys o).

Fixpoint getOwn (o : obj) (key : string) : option value :=
  match o with
  | [] => None
  | (k, v) :: o' => if String.eqb k key then Some v else getOwn o' key
  end.

(** The property names every plain object inherits from [Object.prototype]. *)
Definition Object_prototype_names : list string :=
  [ "constructor"; "__defineGetter__"; "__defineSetter__"; "hasOwnProperty";
    "__lookupGetter__"; "__lookupSetter__"; "isPrototypeOf";
    "propertyIsEnumerable"; "toString"; "valueOf"; "__proto__";
    "toLocaleString" ].

Definition inherited (key : string) : bool :=
  existsb (String.eqb key) Object_prototype_names.

(** [o[key]] on a plain object: own properties first, then the prototype. *)
Definition get (o : obj) (key : string) : value :=
  match getOwn o key with
  | Some v => v
  | None => if inherited key then VBuiltin key else VUndefined
  end.

(** Defining a data property in an object literal: an existing key keeps its
    position and takes the new value, a new key goes last. *)
Fixpoint set (o : obj) (key : string) (v : value) : obj :=
  match o with
  | [] => [(key, v)]
  | (k, v') :: o' =>
      if String.eqb k key then (key, v) :: o' else (k, v') :: set o' key v
  end.

(** [{...o}] copies the own enumerable properties in order. *)
Definition spread (o : obj) : obj := o.

(** [v.path]: throws on undefined and null; a plain object is searched (and
    [path] is not a name on [Object.prototype]); every other value has no
    such property. *)
Definition readPath (v : value) : result value :=
  match v with
  | VUndefined | VNull => Throw TypeError
  | VObj o => Ok (get o "path")
  | _ => Ok VUndefined
  end.

(** [parts.join(sep)] *)
Definition Array_join (sep : string) (parts : list string) : string :=
  match parts with
  | [] => ""
  | p :: ps => fold_left (fun acc s => acc +:+ sep +:+ s) ps p
  end.

(** The abstract operation ToString, as applied by template literals and by
    the attribute serializer. *)
Fixpoint ToString (v : value) : string :=
  match v with
  | VUndefined => "undefined"
  | VNull => "null"
  | VBool true => "true"
  | VBool false => "false"
  | VNum literal => literal
  | VStr s => s
  | VArr items =>
      Array_join "," (map (fun x => match x with
                              | VUndefined | VNull => ""
                              | _ => ToString x
                              end) items)
  | VObj _ => "[object Object]"
  | VBuiltin name =>
      if String.eqb name "__proto__" then "[object Object]"
      else "function " +:+ name +:+ "() { [native code] }"
  end.

(** The abstract operation ToBoolean. *)
Definition truthy (v : value) : bool :=
  match v with
  | VUndefined | VNull => false
  | VBool b => b
  | VNum literal => negb (String.eqb literal "0" || String.eqb literal "NaN")
  | VStr s => negb (String.eqb s "")
  | VArr _ | VObj _ | VBuiltin _ => true
  end.

(** [s.startsWith(prefix)] *)
Definition startsWith (s prefix : string) : bool := String.prefix prefix s.

(** ** [node:path] on directory entries

    [fs.readdir] yields entry names, which hold no path separator; the two
    functions below are [path.extname] and [path.basename] on such names. *)
Module path.

(** The part of [s] from its last dot on, if it has a dot. *)
Fixpoint fromLastDot (s : string) : option string :=
  match s with
  | EmptyString => None
  | String c s' =>
      match fromLastDot s' with
      | Some e => Some e
      | None => if Ascii.eqb c "." then Some s else None
      end
  end.

(** No extension when there is no dot, when the only dot leads the name,
    and for the name [..]. *)
Definition extname (file : string) : string :=
  match fromLastDot file with
  | None => ""
  | Some e =>
      if String.eqb e file then ""
      else if String.eqb file ".." then ""
      else e
  end.

(** [Some p] when [s] is [p] followed by [suffix]. *)
Fixpoint stripSuffix (s suffix : string) : option string :=
  if String.eqb s suffix then Some ""
  else match s with
       | EmptyString => None
       | String c s' =>
           match stripSuffix s' suffix with
           | Some p => Some (String c p)
           | None => None
           end
       end.

(** [path.basename(file, suffix)]: the suffix is dropped when the name ends
    with it; a name equal to the suffix gives the empty string. *)
Definition basename (file suffix : string) : string :=
  if String.eqb suffix "" then file
  else match stripSuffix file suffix with
       | Some p => p
       | None => file
       end.

(** [path.join(folder, file)] for a normalized folder and an entry name. *)
Definition join (folder file : string) : string :=
  folder +:+ "/" +:+ file.

End path.

(** ** Pages *)

Record Page : Type := mkPage {
  data : obj;
  content : string;
  fileName : string;
}.

(** [page => page.fileName.startsWith("[")], lines 162 and 173. *)
Definition isTemplate (page : Page) : bool := startsWith (fileName page) "[".

(** ** React elements

    A host element carries its props (other than [children]) and its
    children; components are functions that build such trees. *)

Inductive node : Type :=
| Text (s : string)
| Element (type : string) (props : obj) (children : list node)
| Fragment (children : list node).

Record Pkg : Type := mkPkg {
  version : string;
  repository : obj;
}.

Record Time : Type := mkTime { formatted : string }.
Record BuildInfo : Type := mkBuildInfo { time : Time }.

Record IconProps : Type := mkIconProps { icon : string }.

Record CodeBlockProps : Type := mkCodeBlockProps {
  language : option string;
  codeChildren : string;
}.

Record WrapperProps : Type := mkWrapperProps {
  page : Page;
  element : node;
  pages : list Page;
  buildInfo : BuildInfo;
}.

Definition str (s : string) : value := VStr s.

Section Components.

(** [icons.json], loaded once when the script starts. *)
Variable icons : obj.

(** [hljs.highlight(code, {language}).value]; it throws on a language that
    is not registered. *)
Variable hljs_highlight : string -> string -> result string.

(** The JSX of [Icon], lines 37-39, around the path data [d]. *)
Definition glyph (d : value) : node :=
  Element "svg"
    [ ("xmlns", str "http-//www.w3.org/2000/svg"); ("width", str "1em");
      ("height", str "1em"); ("viewBox", str "0 0 24 24") ]
    [ Element "path"
        [ ("d", d); ("fill", str "none"); ("strokeWidth", str "2");
          ("stroke", str "currentColor"); ("strokeLinecap", str "round");
          ("strokeLinejoin", str "round") ]
        [] ].

Definition Icon (props : IconProps) : result node :=
  d <- readPath (get icons (icon props)) ;;
  Ok (glyph d).

Definition codeBlockClassName : string :=
  "p-4 rounded-md bg-gray-900 text-white overflow-auto mb-8 text-sm font-mono".

Definition CodeBlock (props : CodeBlockProps) : result node :=
  let className := codeBlockClassName in
  let plain :=
    Ok (Element "pre" [ ("className", str className) ]
          [ Text (codeChildren props) ]) in
  match language props with
  | Some lang =>
      if truthy (VStr lang) then
        html <- hljs_highlight (codeChildren props) lang ;;
        Ok (Element "pre"
              [ ("className", str className);
                ("dangerouslySetInnerHTML", VObj [ ("__html", str html) ]) ]
              [])
      else plain
  | None => plain
  end.

(** The table of components handed to every compiled page. *)
Record Components : Type := mkComponents {
  c_h1 : list node -> node;
  c_h2 : list node -> node;
  c_p : list node -> node;
  c_code : list node -> node;
  c_Icon : IconProps -> result node;
  c_CodeBlock : CodeBlockProps -> result node;
  c_Fragment : list node -> node;
}.

Definition pageComponents : Components := {|
  c_h1 := fun children =>
    Element "h1"
      [ ("className", str "mt-8 mb-4 text-gray-800 text-2xl font-bold") ]
      children;
  c_h2 := fun children =>
    Element "h2"
      [ ("className", str "mt-8 mb-4 text-gray-800 text-xl font-bold") ]
      children;
  c_p := fun children =>
    Element "p" [ ("className", str "mt-6 mb-6") ] children;
  c_code := fun children =>
    Element "code" [ ("className", str "font-bold text-sm font-mono") ]
      ([ Text "'" ] ++ children ++ [ Text "'" ]);
  c_Icon := fun props => Icon props;
  c_CodeBlock := CodeBlock;
  c_Fragment := Fragment;
|}.

End Components.

(** ** The page shell *)

Section Shell.

(** [package.json], loaded once when the script starts. *)
Variable pkg : Pkg.

Definition meta (key name content : string) : node :=
  Element "meta" [ (key, str name); ("content", str content) ] [].

Definition stylesheet (href : string) : node :=
  Element "link" [ ("rel", str "stylesheet"); ("href", str href) ] [].

Definition siteDescription : string :=
  "Enhance your projects with beautifully crafted SVG icons.".

(** The text of the [title] element. *)
Definition documentTitle (props : WrapperProps) : string :=
  let title := get (data (page props)) "title" in
  (if truthy title then ToString title +:+ " - " else "")
    +:+ " josemi/icons " +:+ version pkg.

Definition PageWrapper (props : WrapperProps) : node :=
  Element "html" [ ("lang", str "en") ]
    [ Element "head" []
        [ Element "meta" [ ("charSet", str "utf-8") ] [];
          meta "name" "viewport"
            "width=device-width, initial-scale=1, shrink-to-fit=no, user-scalable=no";
          meta "name" "title" "josemi/icons";
          meta "name" "description" siteDescription;
          meta "property" "og:site_name" "josemi/icons";
          meta "property" "og:title" "josemi/icons";
          meta "property" "og:type" "website";
          meta "property" "og:url" "https://icons.josemi.xyz";
          meta "property" "og:image" "https://icons.josemi.xyz/og.png";
          meta "property" "og:image:width" "1200";
          meta "property" "og:image:height" "630";
          meta "property" "og:image:alt" "josemi/icons";
          meta "property" "description" siteDescription;
          meta "name" "twitter:card" "summary_large_image";
          meta "name" "twitter:author" "@jmjuanes";
          meta "name" "twitter:title" "josemi/icons";
          meta "name" "twitter:description" siteDescription;
          meta "name" "twitter:image" "https://icons.josemi.xyz/og.png";
          stylesheet
            "https://fonts.googleapis.com/css2?family=Inter:wght@400;500;700;900&display=swap";
          stylesheet "./low.css";
          stylesheet "./highlight.css";
          Element "title" [] [ Text (documentTitle props) ] ];
      Element "body"
        [ ("className",
           str "bg-white m-0 p-0 font-inter text-gray-800 leading-normal") ]
        [ (* Header *)
          Element "div" [ ("className", str "border-b-1 border-gray-300 relative") ]
            [ Element "div"
                [ ("className",
                   str "w-full maxw-7xl h-20 px-6 mx-auto flex items-center justify-between") ]
                [ Element "a"
                    [ ("href", str "./index.html");
                      ("className",
                       str "flex items-center gap-2 text-gray-800 no-underline") ]
                    [ Element "div"
                        [ ("className", str "font-bold flex items-center") ]
                        [ Element "span" [] [ Text "josemi/" ];
                          Element "span" [ ("className", str "text-gray-500") ]
                            [ Text "icons" ] ];
                      Element "div"
                        [ ("className",
                           str "flex items-center font-bold text-2xs bg-gray-200 px-2 py-1 rounded-lg") ]
                        [ Element "span" [] [ Text "v"; Text (version pkg) ] ] ];
                  Element "div"
                    [ ("className", str "flex flex-row gap-6 items-center") ]
                    [ Element "a"
                        [ ("href", VObj (repository pkg));
                          ("className", str "no-underline o-70 hover:o-100") ]
                        [ Element "img"
                            [ ("className", str "w-6 h-6");
                              ("src", str "./github.svg") ] [] ] ] ] ];
          (* Main content *)
          Element "div" [ ("className", str "w-full maxw-7xl mx-auto px-6") ]
            [ element props ];
          (* Footer *)
          Element "div"
            [ ("className", str "w-full maxw-7xl mx-auto px-6 pt-10 pb-20") ]
            [ Element "div"
                [ ("className", str "mb-12 border-t-1 border-gray-300") ] [];
              Element "div" [ ("className", str "text-center text-sm mb-2") ]
                [ Text "Designed by ";
                  Element "a"
                    [ ("href", str "https://josemi.xyz");
                      ("className",
                       str "no-underline text-gray-800 hover:text-gray-700 font-bold") ]
                    [ Text "Josemi" ];
                  Text ". The source code is available on ";
                  Element "a"
                    [ ("href", get (repository pkg) "url");
                      ("className",
                       str "no-underline text-gray-800 hover:text-gray-700 font-bold") ]
                    [ Text "GitHub" ];
                  Text "." ];
              Element "div" [ ("className", str "text-center text-sm") ]
                [ Element "div" []
                    [ Text "Last built on ";
                      Text (formatted (time (buildInfo props)));
                      Text "." ] ] ] ] ].

End Shell.

(** ** The static renderer

    [renderToStaticMarkup] of react-dom/server (React 18) on the host elements
    and props this script builds: text and attribute values are escaped,
    props with no value are left out, void elements are self-closed, and the
    raw markup of [dangerouslySetInnerHTML] takes the place of children. *)

Definition doubleQuote : ascii := ascii_of_nat 34.
Definition lineFeed : ascii := ascii_of_nat 10.

Definition escapeChar (c : ascii) : string :=
  if Ascii.eqb c "&" then "&amp;"
  else if Ascii.eqb c "<" then "&lt;"
  else if Ascii.eqb c ">" then "&gt;"
  else if Ascii.eqb c doubleQuote then "&quot;"
  else if Ascii.eqb c "'" then "&#x27;"
  else String c EmptyString.

Fixpoint escapeTextForBrowser (s : string) : string :=
  match s with
  | EmptyString => EmptyString
  | String c s' => escapeChar c +:+ escapeTextForBrowser s'
  end.

Definition attributeName (prop : string) : string :=
  if String.eqb prop "className" then "class"
  else if String.eqb prop "strokeWidth" then "stroke-width"
  else if String.eqb prop "strokeLinecap" then "stroke-linecap"
  else if String.eqb prop "strokeLinejoin" then "stroke-linejoin"
  else prop.

Definition renderAttribute (prop : string * value) : string :=
  let (name, v) := prop in
  let shown :=
    " " +:+ attributeName name +:+ "=" +:+ String doubleQuote EmptyString
        +:+ escapeTextForBrowser (ToString v)
        +:+ String doubleQuote EmptyString in
  if String.eqb name "dangerouslySetInnerHTML" || String.eqb name "children"
  then EmptyString
  else match v with
       | VUndefined | VNull | VBool _ => EmptyString
       | VBuiltin b => if String.eqb b "__proto__" then shown else EmptyString
       | _ => shown
       end.

Definition voidElements : list string :=
  [ "area"; "base"; "br"; "col"; "embed"; "hr"; "img"; "input"; "keygen";
    "link"; "meta"; "param"; "source"; "track"; "wbr" ].

Definition isVoid (type : string) : bool :=
  existsb (String.eqb type) voidElements.

Definition innerHTML (props : obj) : option string :=
  match getOwn props "dangerouslySetInnerHTML" with
  | Some (VObj o) =>
      match getOwn o "__html" with
      | None | Some VUndefined | Some VNull => None
      | Some v => Some (ToString v)
      end
  | _ => None
  end.

(** The content of [pre] and [listing] gets one more line feed in front when
    it is a string that starts with one, since an HTML parser drops the
    first. [raw] is that string: the inner HTML or the only text child. *)
Definition leadingLineFeed (type raw : string) : string :=
  if String.eqb type "pre" || String.eqb type "listing" then
    match raw with
    | String c _ =>
        if Ascii.eqb c lineFeed then String lineFeed EmptyString
        else EmptyString
    | EmptyString => EmptyString
    end
  else EmptyString.

Fixpoint renderNode (n : node) : string :=
  match n with
  | Text s => escapeTextForBrowser s
  | Fragment children => String.concat EmptyString (map renderNode children)
  | Element type props children =>
      let start :=
        "<" +:+ type
            +:+ String.concat EmptyString (map renderAttribute props) in
      if isVoid type then start +:+ "/>"
      else
        let raw :=
          match innerHTML props, children with
          | Some html, _ => html
          | None, [ Text s ] => s
          | None, _ => EmptyString
          end in
        let inner :=
          match innerHTML props with
          | Some html => html
          | None => String.concat EmptyString (map renderNode children)
          end in
        start +:+ ">" +:+ leadingLineFeed type raw +:+ inner
              +:+ "</" +:+ type +:+ ">"
  end.

(** The string [renderToStaticMarkup] returns: the serialized tree and
    nothing around it. *)
Definition renderToStaticMarkup (n : node) : string := renderNode n.

(** ** The build *)

(** [getBuildInfo]: the clock is read once and formatted by
    [Intl.DateTimeFormat] for en-US, full date, long time, CET. *)
Definition getBuildInfo (format : nat -> string) (now : nat) : BuildInfo :=
  {| time := {| formatted := format now |} |}.

(** The props every compiled page body is rendered with. *)
Record PageProps : Type := mkPageProps {
  pp_page : Page;
  pp_components : Components;
  pp_icons : list value;
  pp_version : string;
  pp_repository : value;
  pp_downloadUrl : string;
}.

Section Build.

Variable pkg : Pkg.
Variable icons : obj.
Variable hljs_highlight : string -> string -> result string.

(** The file system: [fs.readdir], [fs.readFile] and [fs.writeFile]. *)
Variable fs_readdir : string -> result (list string).
Variable fs_readFile : string -> result string.
Variable fs_writeFile : string -> string -> result unit.

(** gray-matter: the front matter of a file and the text after it. *)
Variable matter : string -> result (obj * string).

(** [mdx.evaluate]: a page body compiled to a component. *)
Variable mdx_evaluate : string -> result (PageProps -> result node).

Variable cwd : string.

Definition readMarkdownFile (folder file : string) : result Page :=
  let filePath := path.join folder file in
  fileContent <- fs_readFile filePath ;;
  parsed <- matter fileContent ;;
  Ok {| data := fst parsed;
        content := snd parsed;
        fileName := path.basename file ".mdx" +:+ ".html" |}.

(** Lines 153-160: the entries of the input folder that are [.mdx] files,
    each one read and parsed, in listing order. *)
Definition loadPages (inputFolder : string) : result (list Page) :=
  entries <- fs_readdir inputFolder ;;
  let files :=
    filter (fun file => String.eqb (path.extname file) ".mdx") entries in
  Promise_all (map (fun file => readMarkdownFile inputFolder file) files).

(** The object literal of lines 163-171: the page of one catalog key. *)
Definition derivedPage (template : Page) (icon : string) : Page :=
  {| data := set (set (spread (data template)) "title" (VStr icon))
                 "icon" (get icons icon);
     content := content template;
     fileName := icon +:+ ".html" |}.

(** Line 162: the first page whose file name starts with a bracket. *)
Definition templatePage (pages : list Page) : option Page :=
  find isTemplate pages.

(** Lines 163-171: one page per catalog key. The callback reads
    [templatePage.data], which throws when [find] returned undefined. *)
Definition iconsPages (pages : list Page) : result (list Page) :=
  mapM (fun icon =>
          match templatePage pages with
          | None => Throw TypeError
          | Some template => Ok (derivedPage template icon)
          end)
       (Object_keys icons).

(** Lines 161-176, the template expander. *)
Definition expandTemplate (pages : list Page) : result (list Page) :=
  iconsPages <- iconsPages pages ;;
  Ok (filter (fun page => negb (isTemplate page)) pages ++ iconsPages).

(** Lines 178-204: one page compiled, wrapped, serialized and written. *)
Definition buildPage (outputFolder : string) (buildInfo : BuildInfo)
    (pages : list Page) (page : Page) : result (string * string) :=
  pageComponent <- mdx_evaluate (content page) ;;
  element <- pageComponent
    {| pp_page := page;
       pp_components := pageComponents icons hljs_highlight;
       pp_icons := Object_values icons;
       pp_version := version pkg;
       pp_repository := get (repository pkg) "url";
       pp_downloadUrl :=
         ToString (get (repository pkg) "url") +:+ "/releases/download/v"
           +:+ version pkg +:+ "/icons.zip" |} ;;
  let pageContent :=
    PageWrapper pkg {| page := page; element := element;
                       pages := pages; buildInfo := buildInfo |} in
  let content := renderToStaticMarkup pageContent in
  _ <- fs_writeFile (path.join outputFolder (fileName page)) content ;;
  Ok (fileName page, content).

(** Lines 153-176: the pages that go on to be compiled. *)
Definition finalPages (inputFolder : string) : result (list Page) :=
  pages <- loadPages inputFolder ;;
  expandTemplate pages.

(** Line 178: one chain per page. *)
Definition buildPromises (outputFolder : string) (buildInfo : BuildInfo)
    (pages : list Page) : list (result (string * string)) :=
  map (fun page => buildPage outputFolder buildInfo pages page) pages.

(** Lines 145-207: the whole run; the result lists the files written. *)
Definition build (buildInfo : BuildInfo) : result (list (string * string)) :=
  let inputFolder := path.join cwd "pages" in
  let outputFolder := path.join cwd "www" in
  pages <- finalPages inputFolder ;;
  Promise_all (buildPromises outputFolder buildInfo pages).

End Build.

(** ** The catalog as its file declares it

    [require("../icons.json")] parses the file's object: members are defined
    in the order the file lists them (a repeated key keeps its first place
    and takes the later value), and the keys of the resulting object are
    enumerated with the array indices first, in ascending numeric order, and
    the other keys after them, in the order they were defined. *)

Definition isDigit (c : ascii) : bool :=
  Nat.leb 48 (nat_of_ascii c) && Nat.leb (nat_of_ascii c) 57.

Fixpoint digitsValue (acc : N) (s : string) : option N :=
  match s with
  | EmptyString => Some acc
  | String c rest =>
      if isDigit c
      then digitsValue (10 * acc + (N_of_ascii c - 48))%N rest
      else None
  end.

(** An array index: the canonical decimal text of an integer from 0 to
    2^32 - 2. *)
Definition arrayIndex (key : string) : option N :=
  match key with
  | EmptyString => None
  | String c rest =>
      if Ascii.eqb c "0" && negb (String.eqb rest EmptyString) then None
      else match digitsValue 0%N key with
           | Some n => if (n <? 4294967295)%N then Some n else None
           | None => None
           end
  end.

Definition isArrayIndex (key : string) : bool :=
  match arrayIndex key with
  | Some _ => true
  | None => false
  end.

Definition indexOf (key : string) : N :=
  match arrayIndex key with
  | Some n => n
  | None => 0%N
  end.

Fixpoint insertByIndex (member : string * value) (sorted : obj) : obj :=
  match sorted with
  | [] => [ member ]
  | m :: sorted' =>
      if (indexOf (fst member) <=? indexOf (fst m))%N
      then member :: sorted
      else m :: insertByIndex member sorted'
  end.

Definition sortByIndex (members : obj) : obj :=
  fold_right insertByIndex [] members.

(** The enumeration order of a plain object whose properties were defined
    in the order of [defined]. *)
Definition ownPropertyOrder (defined : obj) : obj :=
  sortByIndex (filter (fun m => isArrayIndex (fst m)) defined)
    ++ filter (fun m => negb (isArrayIndex (fst m))) defined.

(** The object [JSON.parse] builds from the members of a JSON object. *)
Definition JSON_parse (members : list (string * value)) : obj :=
  ownPropertyOrder
    (fold_left (fun o m => set o (fst m) (snd m)) members []).

(** ** Notions the statements use *)

(** The loaded pages that are kept: those outside the bracket convention. *)
Definition ordinary (pages : list Page) : list Page :=
  filter (fun page => negb (isTemplate page)) pages.

(** The entries the loader keeps. *)
Definition isMdx (file : string) : bool :=
  String.eqb (path.extname file) ".mdx".

(** A file and the page read from it: the extension is swapped. *)
Definition named (file : string) (p : Page) : Prop :=
  exists base,
    file = base +:+ path.extname file /\ fileName p = base +:+ ".html".

(** The two elements the code-block component can return. *)
Definition highlightedBlock (html : string) : node :=
  Element "pre"
    [ ("className", str codeBlockClassName);
      ("dangerouslySetInnerHTML", VObj [ ("__html", str html) ]) ]
    [].

Definition verbatimBlock (code : string) : node :=
  Element "pre" [ ("className", str codeBlockClassName) ] [ Text code ].

(** The start tag both blocks share. *)
Definition preStart : string :=
  "<pre" +:+ renderAttribute ("className", str codeBlockClassName) +:+ ">".

(** ** A sample site, used to exercise the statements *)

Module Sample.

Definition icons : obj :=
  [ ("star", VObj [ ("path", VStr "M12 2l3 7h7l-6 4 2 7-6-4-6 4 2-7-6-4h7z") ]);
    ("heart", VObj [ ("path", VStr "M12 21C5 15 2 12 2 8a5 5 0 0 1 10 0") ]) ].

Definition template : Page :=
  {| data := [ ("layout", VStr "icon"); ("title", VStr "placeholder") ];
     content := "# {props.page.title}";
     fileName := "[slug].html" |}.

Definition otherTemplate : Page :=
  {| data := [ ("layout", VStr "other") ];
     content := "unused";
     fileName := "[id].html" |}.

Definition guide : Page :=
  {| data := [ ("title", VStr "Guide") ];
     content := "# Guide";
     fileName := "guide.html" |}.

Definition pages : list Page := [ template; guide ].

Definition pkg : Pkg :=
  {| version := "1.2.3";
     repository := [ ("type", VStr "git");
                     ("url", VStr "https://github.com/jmjuanes/fonticon") ] |}.

Definition buildInfo : BuildInfo :=
  {| time := {| formatted := "Monday, January 1, 2024 at 12:00:00 PM GMT+1" |} |}.

End Sample.

Module SampleFs.

Definition fs_readdir (folder : string) : result (list string) :=
  Ok [ "[slug].mdx"; "guide.mdx"; "notes.txt" ].

Definition fs_readFile (filePath : string) : result string :=
  Ok ("# " +:+ filePath).

Definition matter (text : string) : result (obj * string) :=
  Ok ([ ("layout", VStr "default") ], text).

(** A folder where a page is named after a catalog entry. *)
Definition clashing_readdir (folder : string) : result (list string) :=
  Ok [ "[slug].mdx"; "star.mdx" ].

End SampleFs.

(** File systems with a fault, and other sample inputs. *)
Module Faults.

(** Reading [pages/notes.txt] is refused; every other file reads. *)
Definition notes_unreadable (filePath : string) : result string :=
  if String.eqb filePath "pages/notes.txt"
  then Throw (ExternalError "EACCES")
  else Ok ("# " +:+ filePath).

(** Reading [pages/guide.mdx] is refused; every other file reads. *)
Definition guide_unreadable (filePath : string) : result string :=
  if String.eqb filePath "pages/guide.mdx"
  then Throw (ExternalError "EACCES")
  else Ok ("# " +:+ filePath).

(** A highlighter that knows one language. *)
Definition only_js (code lang : string) : result string :=
  if String.eqb lang "js"
  then Ok ("<span>" +:+ escapeTextForBrowser code +:+ "</span>")
  else Throw (ExternalError "Unknown language").

(** A compiler whose pages are one paragraph holding the body, except that a
    body starting with [!] does not compile. *)
Definition mdx_evaluate (body : string)
  : result (PageProps -> result node) :=
  if startsWith body "!" then Throw (ExternalError "Could not parse")
  else Ok (fun props => Ok (c_p (pp_components props) [ Text body ])).

Definition fs_writeFile (filePath text : string) : result unit := Ok tt.

(** Front matter parsing that leaves a body the compiler above rejects. *)
Definition bang_bodies (text : string) : result (obj * string) :=
  Ok ([], "!" +:+ text).

(** The members of an icons.json that names icons by number and by word. *)
Definition numbered_catalog : list (string * value) :=
  [ ("b", VObj [ ("path", VStr "M1 1") ]);
    ("10", VObj [ ("path", VStr "M2 2") ]);
    ("2", VObj [ ("path", VStr "M3 3") ]) ].

(** A catalog with an entry whose name starts with a bracket. *)
Definition bracket_catalog : obj :=
  [ ("[new]", VObj [ ("path", VStr "M4 4") ]) ].

End Faults.

(** * Properties *)

(** ** Plain objects *)

Lemma getOwn_set_same (o : obj) (key : string) (v : value) :
  getOwn (set o key v) key = Some v.
Proof.
  induction o as [|[k w] o IH]; simpl.
  - now rewrite String.eqb_refl.
  - destruct (String.eqb k key) eqn:E; simpl.
    + now rewrite String.eqb_refl.
    + now rewrite E.
Qed.

Lemma getOwn_set_other (o : obj) (key key' : string) (v : value) :
  key' <> key -> getOwn (set o key v) key' = getOwn o key'.
Proof.
  intros Hne. induction o as [|[k w] o IH]; simpl.
  - destruct (String.eqb_spec key key'); congruence.
  - destruct (String.eqb_spec k key) as [->|Hk]; simpl.
    + destruct (String.eqb_spec key key'); congruence.
    + now rewrite IH.
Qed.

Lemma getOwn_entry (o : obj) (key : string) (v : value) :
  wellFormed o -> In (key, v) o -> getOwn o key = Some v.
Proof.
  unfold wellFormed, Object_keys.
  induction o as [|[k w] o IH]; simpl; intros Hnd Hin; [easy|].
  inversion Hnd as [|? ? Hk Hnd']; subst.
  destruct Hin as [Heq|Hin].
  - inversion Heq; subst. now rewrite String.eqb_refl.
  - destruct (String.eqb_spec k key) as [->|_]; [|now apply IH].
    exfalso. apply Hk. now apply (in_map fst) in Hin.
Qed.

Lemma get_own (o : obj) (key : string) (v : value) :
  getOwn o key = Some v -> get o key = v.
Proof. unfold get. now intros ->. Qed.

(** ** Traversals that may throw *)

Lemma mapM_Ok {A B : Type} (f : A -> result B) (g : A -> B) (l : list A) :
  (forall a, In a l -> f a = Ok (g a)) -> mapM f l = Ok (map g l).
Proof.
  induction l as [|a l IH]; simpl; intros H; [reflexivity|].
  rewrite (H a) by now left. simpl.
  rewrite IH by (intros; apply H; now right). reflexivity.
Qed.

Lemma Promise_all_map {A B : Type} (f : A -> result B) (l : list A) :
  Promise_all (map f l) = mapM f l.
Proof. induction l as [|a l IH]; simpl; [reflexivity|]. now rewrite IH. Qed.

Lemma mapM_inv {A B : Type} (f : A -> result B) (l : list A) (out : list B) :
  mapM f l = Ok out -> Forall2 (fun a b => f a = Ok b) l out.
Proof.
  revert out. induction l as [|a l IH]; simpl; intros out H.
  - inversion H. constructor.
  - destruct (f a) as [b|] eqn:Ea; simpl in H; [|discriminate].
    destruct (mapM f l) as [bs|] eqn:El; simpl in H; [|discriminate].
    inversion H; subst. constructor; auto.
Qed.

(** ** The template expander *)

Lemma expandTemplate_found (icons : obj) (pages : list Page) (t : Page) :
  templatePage pages = Some t ->
  expandTemplate icons pages
  = Ok (ordinary pages ++ map (derivedPage icons t) (Object_keys icons)).
Proof.
  intros Hfind. unfold expandTemplate, iconsPages. rewrite Hfind.
  rewrite (mapM_Ok _ (derivedPage icons t)) by reflexivity.
  reflexivity.
Qed.

Lemma expandTemplate_missing (icons : obj) (pages : list Page) :
  templatePage pages = None ->
  expandTemplate icons pages
  = match Object_keys icons with
    | [] => Ok (ordinary pages)
    | _ :: _ => Throw TypeError
    end.
Proof.
  intros Hfind. unfold expandTemplate, iconsPages. rewrite Hfind.
  destruct (Object_keys icons); simpl; [|reflexivity].
  now rewrite app_nil_r.
Qed.

Lemma expandTemplate_inv (icons : obj) (pages out : list Page) :
  expandTemplate icons pages = Ok out ->
  match templatePage pages with
  | Some t => out = ordinary pages ++ map (derivedPage icons t) (Object_keys icons)
  | None => Object_keys icons = [] /\ out = ordinary pages
  end.
Proof.
  intros H. destruct (templatePage pages) as [t|] eqn:Hfind.
  - rewrite (expandTemplate_found _ _ _ Hfind) in H. now inversion H.
  - rewrite (expandTemplate_missing _ _ Hfind) in H.
    destruct (Object_keys icons); [|discriminate]. now inversion H.
Qed.

Lemma find_first {A : Type} (f : A -> bool) (l : list A) (a : A) :
  find f l = Some a ->
  exists before after,
    l = before ++ a :: after /\ f a = true
    /\ Forall (fun x => f x = false) before.
Proof.
  induction l as [|x l IH]; simpl; [discriminate|].
  destruct (f x) eqn:Ex; intros H.
  - inversion H; subst. exists [], l. auto.
  - destruct (IH H) as (before & after & -> & Ha & Hb).
    exists (x :: before), after. auto.
Qed.

Lemma filter_find {A : Type} (f : A -> bool) (l : list A) :
  filter f l <> [] -> exists a, find f l = Some a.
Proof.
  induction l as [|x l IH]; simpl; [easy|].
  destruct (f x); eauto.
Qed.

Lemma templatePage_exists (pages : list Page) :
  filter isTemplate pages <> [] -> exists t, templatePage pages = Some t.
Proof. apply filter_find. Qed.

Lemma startsWith_html (s : string) :
  startsWith (s +:+ ".html") "[" = startsWith s "[".
Proof.
  unfold startsWith. destruct s as [|c s]; [reflexivity|].
  cbn [String.append String.prefix].
  destruct (ascii_dec "[" c); [|reflexivity]. now destruct s.
Qed.

Lemma ordinary_In (pages : list Page) (p : Page) :
  In p (ordinary pages) <-> In p pages /\ isTemplate p = false.
Proof.
  unfold ordinary. rewrite filter_In, negb_true_iff. reflexivity.
Qed.

Lemma Forall2_map_r {A B : Type} (P : A -> B -> Prop) (f : A -> B) (l : list A) :
  (forall a, In a l -> P a (f a)) -> Forall2 P l (map f l).
Proof.
  induction l as [|a l IH]; simpl; intros H; constructor.
  - apply H. now left.
  - apply IH. intros; apply H. now right.
Qed.

(** ** Expansion completeness *)

(** C1, as amended. For a catalog with N entries and a loaded page list
    holding exactly one template page and M ordinary pages, the template
    expander returns a list of exactly M + N pages: the template is dropped,
    the M ordinary pages stay and N derived pages are added. *)
Theorem expansion_page_count (icons : obj) (pages : list Page) (N M : nat) :
  length (Object_keys icons) = N ->
  length (filter isTemplate pages) = 1 ->
  length (ordinary pages) = M ->
  exists out, expandTemplate icons pages = Ok out /\ length out = M + N.
Proof.
  intros HN Hone HM.
  destruct (templatePage_exists pages) as [t Ht].
  { intros E. rewrite E in Hone. discriminate. }
  rewrite (expandTemplate_found _ _ _ Ht). eexists; split; [reflexivity|].
  rewrite length_app, length_map. lia.
Qed.

Lemma expansion_page_count_sample :
  exists out,
    expandTemplate Sample.icons Sample.pages = Ok out /\ length out = 1 + 2.
Proof.
  apply (expansion_page_count Sample.icons Sample.pages 2 1); reflexivity.
Defined.

(** C1, as stated: the count M - 1 + N fails on a one-entry catalog with one
    template page and one ordinary page, where two pages come out. *)
Lemma page_count_off_by_one :
  let icons := [ ("star", VObj [ ("path", VStr "M0 0") ]) ] in
  let pages := [ Sample.template; Sample.guide ] in
  length (Object_keys icons) = 1
  /\ length (filter isTemplate pages) = 1
  /\ length (ordinary pages) = 1
  /\ exists out,
       expandTemplate icons pages = Ok out /\ length out <> 1 - 1 + 1.
Proof.
  repeat split. eexists; split; [reflexivity|]. simpl. discriminate.
Qed.

(** ** Order of the final page list *)

Lemma set_fresh (o : obj) (key : string) (v : value) :
  ~ In key (Object_keys o) -> set o key v = o ++ [ (key, v) ].
Proof.
  induction o as [|[k w] o IH]; simpl; intros H; [reflexivity|].
  destruct (String.eqb_spec k key) as [->|_]; [tauto|].
  rewrite IH; [reflexivity|tauto].
Qed.

Lemma define_in_order (members o : obj) :
  NoDup (map fst (o ++ members)) ->
  fold_left (fun o m => set o (fst m) (snd m)) members o = o ++ members.
Proof.
  revert o. induction members as [|[k v] members IH]; intros o H; simpl.
  - now rewrite app_nil_r.
  - rewrite set_fresh.
    + rewrite IH; rewrite <- app_assoc; [reflexivity|exact H].
    + rewrite map_app in H. simpl in H. apply NoDup_remove_2 in H.
      intros Hin. apply H, in_or_app. now left.
Qed.

Lemma map_fst_filter (f : string -> bool) (l : obj) :
  map fst (filter (fun m => f (fst m)) l) = filter f (map fst l).
Proof.
  induction l as [|[k v] l IH]; simpl; [reflexivity|].
  destruct (f k); simpl; now rewrite IH.
Qed.

Lemma insertByIndex_perm (m : string * value) (l : obj) :
  Permutation (insertByIndex m l) (m :: l).
Proof.
  induction l as [|x l IH]; simpl; [reflexivity|].
  destruct (indexOf (fst m) <=? indexOf (fst x))%N; [reflexivity|].
  rewrite IH. apply perm_swap.
Qed.

Lemma sortByIndex_perm (l : obj) : Permutation (sortByIndex l) l.
Proof.
  induction l as [|m l IH]; simpl; [constructor|].
  rewrite insertByIndex_perm. now constructor.
Qed.

Lemma insertByIndex_sorted (m : string * value) (l : obj) :
  Sorted (fun a b => (indexOf a <= indexOf b)%N) (map fst l) ->
  Sorted (fun a b => (indexOf a <= indexOf b)%N) (map fst (insertByIndex m l)).
Proof.
  induction l as [|x l IH]; simpl; intros H.
  - repeat constructor.
  - destruct (N.leb_spec (indexOf (fst m)) (indexOf (fst x))) as [Hle|Hlt]; simpl.
    + constructor; [exact H|]. now constructor.
    + inversion H as [|? ? Hs Hhd]; subst.
      constructor; [now apply IH|].
      destruct l as [|y l]; simpl.
      * constructor. lia.
      * destruct (N.leb_spec (indexOf (fst m)) (indexOf (fst y))); simpl;
          constructor; [lia|]. now inversion Hhd.
Qed.

Lemma sortByIndex_sorted (l : obj) :
  Sorted (fun a b => (indexOf a <= indexOf b)%N) (map fst (sortByIndex l)).
Proof.
  induction l as [|m l IH]; simpl; [constructor|].
  now apply insertByIndex_sorted.
Qed.

Lemma JSON_parse_keys (declared : list (string * value)) :
  NoDup (map fst declared) ->
  Object_keys (JSON_parse declared)
  = map fst (sortByIndex (filter (fun m => isArrayIndex (fst m)) declared))
      ++ filter (fun key => negb (isArrayIndex key)) (map fst declared).
Proof.
  intros Hnd. unfold JSON_parse, ownPropertyOrder, Object_keys.
  rewrite (define_in_order declared []) by exact Hnd. simpl.
  rewrite map_app. f_equal.
  apply (map_fst_filter (fun key => negb (isArrayIndex key))).
Qed.

(** C9, as amended. When a template page is found, the expander returns the
    loaded non-template pages first, in their loaded order, followed by one
    derived page per catalog key in the order of [Object.keys]: the keys
    that are array indices first, in ascending numeric order, then the other
    keys in the order the catalog file declares them. For a catalog with no
    such numeric key this is the declared order. *)
Theorem final_page_order (declared : list (string * value))
    (pages : list Page) (t : Page) :
  NoDup (map fst declared) ->
  templatePage pages = Some t ->
  exists out indexKeys,
    expandTemplate (JSON_parse declared) pages = Ok out
    /\ firstn (length (ordinary pages)) out
       = filter (fun page => negb (isTemplate page)) pages
    /\ map fileName (skipn (length (ordinary pages)) out)
       = map (fun icon => icon +:+ ".html")
             (indexKeys
                ++ filter (fun key => negb (isArrayIndex key))
                          (map fst declared))
    /\ Permutation indexKeys (filter isArrayIndex (map fst declared))
    /\ Sorted (fun a b => (indexOf a <= indexOf b)%N) indexKeys
    /\ ((forall key, In key (map fst declared) -> isArrayIndex key = false)
        -> map fileName (skipn (length (ordinary pages)) out)
           = map (fun icon => icon +:+ ".html") (map fst declared)).
Proof.
  intros Hnd Ht. rewrite (expandTemplate_found _ _ _ Ht).
  exists (ordinary pages
          ++ map (derivedPage (JSON_parse declared) t)
                 (Object_keys (JSON_parse declared))),
         (map fst (sortByIndex
                     (filter (fun m => isArrayIndex (fst m)) declared))).
  split; [reflexivity|].
  rewrite firstn_app, skipn_app, Nat.sub_diag, firstn_all, skipn_all. simpl.
  rewrite app_nil_r, map_map, (JSON_parse_keys _ Hnd).
  change (fun x => fileName (derivedPage (JSON_parse declared) t x))
    with (fun icon => icon +:+ ".html").
  split; [reflexivity|]. split; [reflexivity|]. split; [|split].
  - rewrite <- (map_fst_filter isArrayIndex).
    apply Permutation_map, sortByIndex_perm.
  - apply sortByIndex_sorted.
  - intros Hnone. f_equal.
    assert (Hidx : filter (fun m => isArrayIndex (fst m)) declared = []).
    { clear Hnd. induction declared as [|[k v] l IH]; simpl; [reflexivity|].
      rewrite (Hnone k) by now left. apply IH.
      intros key Hin. apply Hnone. now right. }
    rewrite Hidx. simpl.
    clear Hidx Hnd. induction (map fst declared) as [|k l IH]; simpl; [reflexivity|].
    rewrite (Hnone k) by now left. simpl. f_equal.
    apply IH. intros key Hin. apply Hnone. now right.
Qed.

Lemma final_page_order_sample :
  exists out indexKeys,
    expandTemplate (JSON_parse Faults.numbered_catalog)
      [ Sample.guide; Sample.template ] = Ok out
    /\ firstn 1 out = [ Sample.guide ]
    /\ map fileName (skipn 1 out)
       = map (fun icon => icon +:+ ".html")
             (indexKeys
                ++ filter (fun key => negb (isArrayIndex key))
                          (map fst Faults.numbered_catalog))
    /\ Permutation indexKeys
         (filter isArrayIndex (map fst Faults.numbered_catalog))
    /\ Sorted (fun a b => (indexOf a <= indexOf b)%N) indexKeys
    /\ ((forall key, In key (map fst Faults.numbered_catalog) ->
                     isArrayIndex key = false)
        -> map fileName (skipn 1 out)
           = map (fun icon => icon +:+ ".html")
                 (map fst Faults.numbered_catalog)).
Proof.
  apply (final_page_order Faults.numbered_catalog
           [ Sample.guide; Sample.template ] Sample.template).
  - simpl. repeat constructor; simpl; intuition discriminate.
  - reflexivity.
Defined.

(** C9, as stated: a catalog file that declares the keys b, 10, 2 in that
    order gets its derived pages in the order 2, 10, b. *)
Lemma declared_order_not_kept :
  map fst Faults.numbered_catalog = [ "b"; "10"; "2" ]
  /\ exists out,
       expandTemplate (JSON_parse Faults.numbered_catalog) Sample.pages
       = Ok out
       /\ map fileName (skipn (length (ordinary Sample.pages)) out)
          = [ "2.html"; "10.html"; "b.html" ]
       /\ map fileName (skipn (length (ordinary Sample.pages)) out)
          <> map (fun icon => icon +:+ ".html")
                 (map fst Faults.numbered_catalog).
Proof.
  split; [reflexivity|]. eexists. split; [reflexivity|].
  split; [reflexivity|]. discriminate.
Qed.

(** ** Removal of template pages *)

(** C10, as amended. Every loaded page whose file name starts with a bracket
    is left out of the pages kept from the loaded list, however many there
    are, and the first of them in list order supplies the body and the
    metadata of every derived page: a derived page has the first bracket
    page's body and, apart from [title] and [icon], its metadata. A derived
    page is named after its catalog key, so the final list is free of
    bracket names only when no catalog key starts with a bracket. *)
Theorem template_pages_excluded (icons : obj) (pages : list Page) (t : Page) :
  templatePage pages = Some t ->
  exists out kept derived before after,
    expandTemplate icons pages = Ok out
    /\ out = kept ++ derived
    /\ (forall p, In p kept <-> In p pages /\ isTemplate p = false)
    /\ pages = before ++ t :: after
    /\ startsWith (fileName t) "[" = true
    /\ Forall (fun p => startsWith (fileName p) "[" = false) before
    /\ Forall2
         (fun key d =>
            fileName d = key +:+ ".html"
            /\ content d = content t
            /\ getOwn (data d) "title" = Some (VStr key)
            /\ forall k, k <> "title" -> k <> "icon" ->
                         getOwn (data d) k = getOwn (data t) k)
         (Object_keys icons) derived
    /\ ((forall key, In key (Object_keys icons) -> startsWith key "[" = false)
        -> forall p, In p out -> startsWith (fileName p) "[" = false).
Proof.
  intros Ht. rewrite (expandTemplate_found _ _ _ Ht).
  destruct (find_first _ _ _ Ht) as (before & after & Hpages & Htpl & Hbefore).
  exists (ordinary pages ++ map (derivedPage icons t) (Object_keys icons)),
         (ordinary pages), (map (derivedPage icons t) (Object_keys icons)),
         before, after.
  split; [reflexivity|]. split; [reflexivity|].
  split; [apply ordinary_In|].
  split; [exact Hpages|]. split; [exact Htpl|]. split; [exact Hbefore|].
  split.
  - apply Forall2_map_r. intros key _.
    unfold derivedPage, spread; simpl. repeat split.
    + rewrite getOwn_set_other by discriminate. apply getOwn_set_same.
    + intros k Htitle Hicon. now rewrite !getOwn_set_other.
  - intros Hkeys p Hp. apply in_app_or in Hp. destruct Hp as [Hp|Hp].
    + now apply ordinary_In in Hp.
    + apply in_map_iff in Hp. destruct Hp as (key & <- & Hkey).
      unfold derivedPage. simpl. rewrite startsWith_html. auto.
Qed.

Lemma template_pages_excluded_sample :
  exists out kept derived before after,
    expandTemplate Sample.icons
      [ Sample.guide; Sample.template; Sample.otherTemplate ] = Ok out
    /\ out = kept ++ derived
    /\ (forall p, In p kept <->
                  In p [ Sample.guide; Sample.template; Sample.otherTemplate ]
                  /\ isTemplate p = false)
    /\ [ Sample.guide; Sample.template; Sample.otherTemplate ]
       = before ++ Sample.template :: after
    /\ startsWith (fileName Sample.template) "[" = true
    /\ Forall (fun p => startsWith (fileName p) "[" = false) before
    /\ Forall2
         (fun key d =>
            fileName d = key +:+ ".html"
            /\ content d = content Sample.template
            /\ getOwn (data d) "title" = Some (VStr key)
            /\ forall k, k <> "title" -> k <> "icon" ->
                         getOwn (data d) k = getOwn (data Sample.template) k)
         (Object_keys Sample.icons) derived
    /\ ((forall key, In key (Object_keys Sample.icons) ->
                     startsWith key "[" = false)
        -> forall p, In p out -> startsWith (fileName p) "[" = false).
Proof.
  apply (template_pages_excluded Sample.icons
           [ Sample.guide; Sample.template; Sample.otherTemplate ]
           Sample.template).
  reflexivity.
Defined.

(** C10, as stated: with a catalog entry named [[new]], the final page list
    holds a page whose file name starts with a bracket. *)
Lemma bracket_name_stays :
  exists out,
    expandTemplate Faults.bracket_catalog Sample.pages = Ok out
    /\ map fileName out = [ "guide.html"; "[new].html" ]
    /\ exists p, In p out /\ startsWith (fileName p) "[" = true.
Proof.
  eexists. split; [reflexivity|]. split; [reflexivity|].
  eexists. split; [right; left; reflexivity|reflexivity].
Qed.

(** ** Derived pages *)

(** C3. With a template page found and a well-formed catalog, the derived
    pages match the catalog entries one to one, in order; the page of an
    entry has the entry's name as [title] and the entry's record as [icon],
    and every other key reads as it does in the template's metadata. *)
Theorem derived_metadata_override (icons : obj) (pages : list Page) (t : Page) :
  templatePage pages = Some t ->
  wellFormed icons ->
  exists derived,
    expandTemplate icons pages = Ok (ordinary pages ++ derived)
    /\ Forall2
         (fun entry d =>
            getOwn (data d) "title" = Some (VStr (fst entry))
            /\ getOwn (data d) "icon" = Some (snd entry)
            /\ forall key, key <> "title" -> key <> "icon" ->
                           getOwn (data d) key = getOwn (data t) key)
         icons derived.
Proof.
  intros Ht Hwf. rewrite (expandTemplate_found _ _ _ Ht).
  eexists; split; [reflexivity|].
  unfold Object_keys. rewrite map_map.
  apply Forall2_map_r. intros [name record] Hin.
  unfold derivedPage, spread; simpl. repeat split.
  - rewrite getOwn_set_other by discriminate. apply getOwn_set_same.
  - rewrite getOwn_set_same. f_equal.
    apply get_own, getOwn_entry; assumption.
  - intros key Htitle Hicon. now rewrite !getOwn_set_other.
Qed.

Lemma derived_metadata_override_sample :
  exists derived,
    expandTemplate Sample.icons Sample.pages
    = Ok (ordinary Sample.pages ++ derived)
    /\ Forall2
         (fun entry d =>
            getOwn (data d) "title" = Some (VStr (fst entry))
            /\ getOwn (data d) "icon" = Some (snd entry)
            /\ forall key, key <> "title" -> key <> "icon" ->
                           getOwn (data d) key
                           = getOwn (data Sample.template) key)
         Sample.icons derived.
Proof.
  apply (derived_metadata_override Sample.icons Sample.pages Sample.template).
  - reflexivity.
  - unfold wellFormed. simpl.
    repeat constructor; simpl; intuition discriminate.
Defined.

(** C4. With a template page found, every derived page carries the
    template's body, whatever the catalog. *)
Theorem derived_body_identity (icons : obj) (pages : list Page) (t : Page) :
  templatePage pages = Some t ->
  exists derived,
    expandTemplate icons pages = Ok (ordinary pages ++ derived)
    /\ length derived = length (Object_keys icons)
    /\ Forall (fun d => content d = content t) derived.
Proof.
  intros Ht. rewrite (expandTemplate_found _ _ _ Ht).
  eexists; split; [reflexivity|]. split; [apply length_map|].
  apply Forall_forall. intros d Hd.
  apply in_map_iff in Hd. now destruct Hd as (icon & <- & _).
Qed.

Lemma derived_body_identity_sample :
  exists derived,
    expandTemplate Sample.icons Sample.pages
    = Ok (ordinary Sample.pages ++ derived)
    /\ length derived = 2
    /\ Forall (fun d => content d = "# {props.page.title}") derived.
Proof.
  apply (derived_body_identity Sample.icons Sample.pages Sample.template).
  reflexivity.
Defined.

(** ** Strings and file names *)

Lemma length_append (a b : string) :
  String.length (a +:+ b) = String.length a + String.length b.
Proof. induction a as [|c a IH]; simpl; [reflexivity|]. now rewrite IH. Qed.

Lemma append_inj_l (a b s : string) : a +:+ s = b +:+ s -> a = b.
Proof.
  revert b. induction a as [|c a IH]; intros [|d b] H; simpl in H.
  - reflexivity.
  - apply (f_equal String.length) in H. simpl in H.
    rewrite length_append in H. lia.
  - apply (f_equal String.length) in H. simpl in H.
    rewrite length_append in H. lia.
  - inversion H. f_equal. now apply IH.
Qed.

Lemma stripSuffix_unfold (s suffix : string) :
  path.stripSuffix s suffix
  = if String.eqb s suffix then Some EmptyString
    else match s with
         | EmptyString => None
         | String c s' =>
             match path.stripSuffix s' suffix with
             | Some p => Some (String c p)
             | None => None
             end
         end.
Proof. destruct s; reflexivity. Qed.

Lemma stripSuffix_append (base suffix : string) :
  path.stripSuffix (base +:+ suffix) suffix = Some base.
Proof.
  induction base as [|c base IH].
  - simpl. rewrite stripSuffix_unfold. now rewrite String.eqb_refl.
  - rewrite stripSuffix_unfold.
    destruct (String.eqb_spec (String c base +:+ suffix) suffix) as [E|_].
    + apply (f_equal String.length) in E. simpl in E.
      rewrite length_append in E. lia.
    + simpl. now rewrite IH.
Qed.

Lemma fromLastDot_suffix (s e : string) :
  path.fromLastDot s = Some e -> exists base, s = base +:+ e.
Proof.
  revert e. induction s as [|c s IH]; simpl; intros e H; [discriminate|].
  destruct (path.fromLastDot s) as [e'|] eqn:E.
  - inversion H; subst. destruct (IH e eq_refl) as [base ->].
    now exists (String c base).
  - destruct (Ascii.eqb c "."); [|discriminate].
    inversion H; subst. now exists EmptyString.
Qed.

Lemma extname_suffix (file ext : string) :
  path.extname file = ext -> ext <> EmptyString ->
  exists base, base <> EmptyString /\ file = base +:+ ext.
Proof.
  unfold path.extname. intros H Hne.
  destruct (path.fromLastDot file) as [e|] eqn:E; [|congruence].
  destruct (String.eqb_spec e file) as [|Hef]; [congruence|].
  destruct (String.eqb file ".."); [congruence|]. subst e.
  destruct (fromLastDot_suffix _ _ E) as [base ->].
  exists base. split; [|reflexivity]. intros ->. now apply Hef.
Qed.

Lemma basename_mdx (base : string) :
  path.basename (base +:+ ".mdx") ".mdx" = base.
Proof. unfold path.basename. simpl String.eqb. now rewrite stripSuffix_append. Qed.

Lemma startsWith_mdx_html (s : string) :
  startsWith (s +:+ ".mdx") "[" = startsWith (s +:+ ".html") "[".
Proof.
  unfold startsWith. destruct s as [|c s]; [reflexivity|].
  cbn [String.append String.prefix].
  destruct (ascii_dec "[" c); [|reflexivity].
  destruct s; reflexivity.
Qed.

(** ** The content loader *)

Section Loader.

Variable fs_readdir : string -> result (list string).
Variable fs_readFile : string -> result string.
Variable matter : string -> result (obj * string).

Lemma readMarkdownFile_name (folder file : string) (p : Page) :
  isMdx file = true ->
  readMarkdownFile fs_readFile matter folder file = Ok p ->
  named file p.
Proof.
  unfold isMdx, readMarkdownFile, named. intros Hext H.
  apply String.eqb_eq in Hext.
  destruct (extname_suffix _ _ Hext) as (base & _ & Hfile); [discriminate|].
  destruct (fs_readFile _) as [text|]; simpl in H; [|discriminate].
  destruct (matter text) as [parsed|]; simpl in H; [|discriminate].
  inversion H; subst p; simpl. exists base. rewrite Hext. split; [exact Hfile|].
  rewrite Hfile at 1. now rewrite basename_mdx.
Qed.

Lemma loadPages_names (folder : string) (entries : list string)
    (loaded : list Page) :
  fs_readdir folder = Ok entries ->
  loadPages fs_readdir fs_readFile matter folder = Ok loaded ->
  Forall2 named (filter isMdx entries) loaded.
Proof.
  unfold loadPages. intros -> H. simpl in H.
  rewrite Promise_all_map in H. apply mapM_inv in H. fold isMdx in H.
  assert (Hmdx : Forall (fun file => isMdx file = true) (filter isMdx entries)).
  { apply Forall_forall. intros file Hin. now apply filter_In in Hin. }
  induction H as [|file p files ps Hp _ IH]; constructor.
  - inversion Hmdx; subst. eapply readMarkdownFile_name; eauto.
  - apply IH. now inversion Hmdx.
Qed.

End Loader.

Lemma named_inj (file file' : string) (p p' : Page) :
  isMdx file = true -> isMdx file' = true ->
  named file p -> named file' p' -> fileName p = fileName p' -> file = file'.
Proof.
  unfold isMdx. intros E E' (base & Hf & Hn) (base' & Hf' & Hn') Heq.
  apply String.eqb_eq in E, E'. rewrite E in Hf. rewrite E' in Hf'.
  rewrite Hn, Hn' in Heq. apply append_inj_l in Heq. congruence.
Qed.

Lemma Forall2_In_r {A B : Type} (R : A -> B -> Prop) (l1 : list A)
    (l2 : list B) (b : B) :
  Forall2 R l1 l2 -> In b l2 -> exists a, In a l1 /\ R a b.
Proof.
  induction 1 as [|x y l1 l2 Hxy _ IH]; simpl; [easy|].
  intros [<-|Hin]; [eauto|]. destruct (IH Hin) as (a & Ha & HR). eauto.
Qed.

Lemma loaded_names_NoDup (files : list string) (loaded : list Page) :
  Forall (fun file => isMdx file = true) files ->
  Forall2 named files loaded -> NoDup files -> NoDup (map fileName loaded).
Proof.
  intros Hmdx H. induction H as [|file p files ps Hp Hrest IH]; simpl; intros Hnd.
  - constructor.
  - inversion Hnd as [|? ? Hnotin Hnd']; subst.
    inversion Hmdx as [|? ? Hfile Hmdx']; subst.
    constructor; [|now apply IH].
    intros Hin. apply in_map_iff in Hin. destruct Hin as (p' & Heq & Hp').
    destruct (Forall2_In_r _ _ _ _ Hrest Hp') as (file' & Hin' & Hnamed').
    assert (file' = file); [|now subst].
    eapply named_inj; eauto.
    eapply Forall_forall in Hmdx'; eauto.
Qed.

Lemma NoDup_map_filter {A B : Type} (f : A -> B) (g : A -> bool) (l : list A) :
  NoDup (map f l) -> NoDup (map f (filter g l)).
Proof.
  induction l as [|a l IH]; simpl; intros H; [constructor|].
  inversion H as [|? ? Hnotin Hnd]; subst.
  destruct (g a); simpl; [|now apply IH].
  constructor; [|now apply IH].
  intros Hin. apply Hnotin. apply in_map_iff in Hin.
  destruct Hin as (x & Hx & Hin). apply filter_In in Hin.
  apply in_map_iff. exists x. tauto.
Qed.

Lemma derived_names (icons : obj) (t : Page) (keys : list string) :
  map fileName (map (derivedPage icons t) keys)
  = map (fun icon => icon +:+ ".html") keys.
Proof. now rewrite map_map. Qed.

Lemma derived_names_NoDup (keys : list string) :
  NoDup keys -> NoDup (map (fun icon => icon +:+ ".html") keys).
Proof.
  apply Injective_map_NoDup. intros a b. apply append_inj_l.
Qed.

(** ** Output naming *)

(** C5. The derived page of a catalog entry named n is named n.html, and a
    page loaded from the source file f is named after f with its extension
    replaced by .html. *)
Theorem output_naming (icons : obj)
    (fs_readdir : string -> result (list string))
    (fs_readFile : string -> result string)
    (matter : string -> result (obj * string))
    (folder : string) (entries : list string) (loaded : list Page) (t : Page) :
  fs_readdir folder = Ok entries ->
  loadPages fs_readdir fs_readFile matter folder = Ok loaded ->
  templatePage loaded = Some t ->
  (exists derived,
     expandTemplate icons loaded = Ok (ordinary loaded ++ derived)
     /\ Forall2 (fun entry d => fileName d = fst entry +:+ ".html")
                icons derived)
  /\ Forall2
       (fun file p =>
          exists base,
            file = base +:+ path.extname file
            /\ fileName p = base +:+ ".html")
       (filter (fun file => String.eqb (path.extname file) ".mdx") entries)
       loaded.
Proof.
  intros Hdir Hload Ht. split.
  - rewrite (expandTemplate_found _ _ _ Ht). eexists; split; [reflexivity|].
    unfold Object_keys. rewrite map_map. now apply Forall2_map_r.
  - exact (loadPages_names _ _ _ _ _ _ Hdir Hload).
Qed.

Lemma output_naming_sample :
  exists loaded,
    loadPages SampleFs.fs_readdir SampleFs.fs_readFile SampleFs.matter "pages"
    = Ok loaded
    /\ (exists derived,
          expandTemplate Sample.icons loaded = Ok (ordinary loaded ++ derived)
          /\ Forall2 (fun entry d => fileName d = fst entry +:+ ".html")
                     Sample.icons derived)
    /\ Forall2
         (fun file p =>
            exists base,
              file = base +:+ path.extname file
              /\ fileName p = base +:+ ".html")
         (filter (fun file => String.eqb (path.extname file) ".mdx")
                 [ "[slug].mdx"; "guide.mdx"; "notes.txt" ])
         loaded.
Proof.
  eexists. split; [reflexivity|].
  eapply (output_naming Sample.icons SampleFs.fs_readdir SampleFs.fs_readFile
            SampleFs.matter "pages" [ "[slug].mdx"; "guide.mdx"; "notes.txt" ]);
    reflexivity.
Defined.

(** ** Uniqueness of output names *)

(** C2, as amended. When the folder lists no name twice, the catalog is well
    formed, and no listed file outside the bracket convention is named
    k.mdx for a catalog key k, the pages returned by the template expander
    have pairwise distinct file names. *)
Theorem output_names_unique (icons : obj)
    (fs_readdir : string -> result (list string))
    (fs_readFile : string -> result string)
    (matter : string -> result (obj * string))
    (folder : string) (entries : list string) (out : list Page) :
  wellFormed icons ->
  fs_readdir folder = Ok entries ->
  NoDup entries ->
  (forall file icon,
     In file entries -> In icon (Object_keys icons) ->
     startsWith file "[" = false -> file <> icon +:+ ".mdx") ->
  finalPages icons fs_readdir fs_readFile matter folder = Ok out ->
  NoDup (map fileName out).
Proof.
  intros Hwf Hdir Hnd Hclash Hfinal. unfold finalPages in Hfinal.
  destruct (loadPages fs_readdir fs_readFile matter folder) as [loaded|] eqn:Hload;
    simpl in Hfinal; [|discriminate].
  pose proof (loadPages_names _ _ _ _ _ _ Hdir Hload) as Hnamed.
  assert (Hmdx : Forall (fun file => isMdx file = true) (filter isMdx entries)).
  { apply Forall_forall. intros file Hin. now apply filter_In in Hin. }
  assert (Hloaded : NoDup (map fileName loaded)).
  { eapply loaded_names_NoDup; eauto. now apply NoDup_filter. }
  assert (Hord : NoDup (map fileName (ordinary loaded))).
  { now apply NoDup_map_filter. }
  apply expandTemplate_inv in Hfinal.
  destruct (templatePage loaded) as [t|]; [|now destruct Hfinal as [_ ->]].
  subst out. rewrite map_app, derived_names.
  apply NoDup_app; [assumption|now apply derived_names_NoDup|].
  intros name Hin1 Hin2.
  apply in_map_iff in Hin1. destruct Hin1 as (p & <- & Hp).
  apply in_map_iff in Hin2. destruct Hin2 as (icon & Heq & Hicon).
  apply ordinary_In in Hp. destruct Hp as [Hp Htpl].
  destruct (Forall2_In_r _ _ _ _ Hnamed Hp) as (file & Hfile & base & Hf & Hn).
  apply filter_In in Hfile. destruct Hfile as [Hfile Hext].
  apply String.eqb_eq in Hext. rewrite Hext in Hf.
  rewrite Hn in Heq. apply append_inj_l in Heq. subst icon.
  apply (Hclash file base); auto.
  rewrite Hf, startsWith_mdx_html, <- Hn. exact Htpl.
Qed.

Lemma output_names_unique_sample :
  exists out,
    finalPages Sample.icons SampleFs.fs_readdir SampleFs.fs_readFile
      SampleFs.matter "pages" = Ok out
    /\ NoDup (map fileName out).
Proof.
  eexists. split; [reflexivity|].
  apply (output_names_unique Sample.icons SampleFs.fs_readdir
           SampleFs.fs_readFile SampleFs.matter "pages"
           [ "[slug].mdx"; "guide.mdx"; "notes.txt" ]).
  - unfold wellFormed. simpl.
    repeat constructor; simpl; intuition discriminate.
  - reflexivity.
  - repeat constructor; simpl; intuition discriminate.
  - simpl. intros file icon Hfile Hicon.
    destruct Hfile as [<-|[<-|[<-|[]]]]; destruct Hicon as [<-|[<-|[]]];
      intros; discriminate.
  - reflexivity.
Defined.

(** C2, as stated: a folder holding the template and [star.mdx], built against
    a catalog with the entry [star], yields two pages named [star.html]. *)
Lemma output_names_collide :
  let icons := [ ("star", VObj [ ("path", VStr "M0 0") ]) ] in
  wellFormed icons
  /\ NoDup [ "[slug].mdx"; "star.mdx" ]
  /\ exists out,
       finalPages icons SampleFs.clashing_readdir SampleFs.fs_readFile
         SampleFs.matter "pages" = Ok out
       /\ map fileName out = [ "star.html"; "star.html" ]
       /\ ~ NoDup (map fileName out).
Proof.
  split; [|split].
  - unfold wellFormed. simpl. repeat constructor. simpl. tauto.
  - repeat constructor; simpl; intuition discriminate.
  - eexists. split; [reflexivity|]. split; [reflexivity|].
    simpl. intros H. inversion H as [|? ? Hnotin _]. apply Hnotin. now left.
Qed.

(** ** The icon component *)

Lemma Icon_missing (icons : obj) (key : string) :
  getOwn icons key = None -> inherited key = false ->
  Icon icons {| icon := key |} = Throw TypeError.
Proof.
  intros Hown Hinh. unfold Icon, get; simpl. now rewrite Hown, Hinh.
Qed.

(** C6, as amended. A key that is neither an own key of the icon table nor a
    name inherited from [Object.prototype] makes the icon component throw a
    TypeError, and a page whose compiled body calls the component on that key
    fails to build with that error; an own key whose entry is an object
    renders the glyph whose path data is the entry's [path]. *)
Theorem icon_lookup (icons : obj) (absent present : string) (entry : obj) :
  getOwn icons absent = None ->
  inherited absent = false ->
  getOwn icons present = Some (VObj entry) ->
  Icon icons {| icon := absent |} = Throw TypeError
  /\ (forall pkg hljs_highlight fs_writeFile mdx_evaluate outputFolder
             buildInfo pages page pageComponent rest,
        mdx_evaluate (content page) = Ok pageComponent ->
        (forall props,
           pageComponent props
           = (svg <- c_Icon (pp_components props) {| icon := absent |} ;;
              rest props svg)) ->
        buildPage pkg icons hljs_highlight fs_writeFile mdx_evaluate
          outputFolder buildInfo pages page = Throw TypeError)
  /\ Icon icons {| icon := present |} = Ok (glyph (get entry "path")).
Proof.
  intros Habsent Hinh Hpresent. split; [|split].
  - now apply Icon_missing.
  - intros pkg hljs fs_writeFile mdx outputFolder buildInfo pages page
      pageComponent rest Hmdx Hbody.
    unfold buildPage. rewrite Hmdx. simpl. rewrite Hbody. simpl.
    now rewrite Icon_missing.
  - unfold Icon, get; simpl. now rewrite Hpresent.
Qed.

Lemma icon_lookup_sample :
  Icon Sample.icons {| icon := "moon" |} = Throw TypeError
  /\ (forall pkg hljs_highlight fs_writeFile mdx_evaluate outputFolder
             buildInfo pages page pageComponent rest,
        mdx_evaluate (content page) = Ok pageComponent ->
        (forall props,
           pageComponent props
           = (svg <- c_Icon (pp_components props) {| icon := "moon" |} ;;
              rest props svg)) ->
        buildPage pkg Sample.icons hljs_highlight fs_writeFile mdx_evaluate
          outputFolder buildInfo pages page = Throw TypeError)
  /\ Icon Sample.icons {| icon := "star" |}
     = Ok (glyph (VStr "M12 2l3 7h7l-6 4 2 7-6-4-6 4 2-7-6-4h7z")).
Proof.
  apply (icon_lookup Sample.icons "moon" "star"
           [ ("path", VStr "M12 2l3 7h7l-6 4 2 7-6-4-6 4 2-7-6-4h7z") ]);
    reflexivity.
Defined.

(** C6, as stated: [toString] is not a key of the icon table, yet the
    component does not fail on it; it returns a glyph whose path has no
    data, and the path is serialized without a [d] attribute. *)
Lemma icon_inherited_key :
  getOwn Sample.icons "toString" = None
  /\ Icon Sample.icons {| icon := "toString" |} = Ok (glyph VUndefined)
  /\ renderAttribute ("d", VUndefined) = EmptyString.
Proof. repeat split. Qed.

(** ** The page shell and the renderer *)

(** X17. Of its props the page shell shows the page's [title] metadata, the
    compiled element and the build info, and nothing else: the [pages] list,
    the page's body, its file name and its other metadata leave the markup
    unchanged. *)
Theorem shell_reads_title_element_info (pkg : Pkg) (props props' : WrapperProps) :
  get (data (page props)) "title" = get (data (page props')) "title" ->
  element props = element props' ->
  buildInfo props = buildInfo props' ->
  renderToStaticMarkup (PageWrapper pkg props)
  = renderToStaticMarkup (PageWrapper pkg props').
Proof.
  intros Htitle Helement Hinfo.
  unfold PageWrapper, documentTitle. now rewrite Htitle, Helement, Hinfo.
Qed.

Lemma shell_reads_title_element_info_sample :
  renderToStaticMarkup
    (PageWrapper Sample.pkg
       {| page := Sample.guide; element := Text "Guide";
          pages := [ Sample.guide ]; buildInfo := Sample.buildInfo |})
  = renderToStaticMarkup
      (PageWrapper Sample.pkg
         {| page := {| data := [ ("title", VStr "Guide"); ("draft", VBool true) ];
                       content := "# Other"; fileName := "other.html" |};
            element := Text "Guide";
            pages := [];
            buildInfo := Sample.buildInfo |}).
Proof.
  apply (shell_reads_title_element_info Sample.pkg); reflexivity.
Defined.

(** ** The code-block component *)

Lemma append_assoc (a b c : string) : (a +:+ b) +:+ c = a +:+ b +:+ c.
Proof. induction a as [|x a IH]; simpl; [reflexivity|]. now rewrite IH. Qed.

Lemma append_empty_r (a : string) : a +:+ EmptyString = a.
Proof. induction a as [|x a IH]; simpl; [reflexivity|]. now rewrite IH. Qed.

Lemma append_inj_r (s a b : string) : s +:+ a = s +:+ b -> a = b.
Proof. induction s as [|x s IH]; simpl; intros H; [exact H|]. inversion H. auto. Qed.

Lemma leadingLineFeed_inj (a b : string) :
  leadingLineFeed "pre" a +:+ a = leadingLineFeed "pre" b +:+ b -> a = b.
Proof.
  unfold leadingLineFeed. simpl String.eqb. cbv iota.
  destruct a as [|c a], b as [|d b]; try reflexivity.
  - destruct (Ascii.eqb_spec d lineFeed); simpl; discriminate.
  - destruct (Ascii.eqb_spec c lineFeed); simpl; discriminate.
  - destruct (Ascii.eqb_spec c lineFeed), (Ascii.eqb_spec d lineFeed);
      simpl; intros H; inversion H; subst; congruence.
Qed.

Lemma render_highlightedBlock (html : string) :
  renderToStaticMarkup (highlightedBlock html)
  = preStart +:+ leadingLineFeed "pre" html +:+ html +:+ "</pre>".
Proof.
  unfold renderToStaticMarkup, highlightedBlock, preStart.
  simpl String.eqb. cbv iota.
  cbn [renderNode isVoid voidElements existsb String.eqb Ascii.eqb Bool.eqb
       orb innerHTML getOwn ToString str map String.concat].
  rewrite !append_assoc. reflexivity.
Qed.

Lemma leadingLineFeed_escape (type s : string) :
  leadingLineFeed type (escapeTextForBrowser s) = leadingLineFeed type s.
Proof.
  unfold leadingLineFeed.
  destruct (String.eqb type "pre" || String.eqb type "listing"); [|reflexivity].
  destruct s as [|c s]; [reflexivity|].
  simpl escapeTextForBrowser. unfold escapeChar.
  destruct (Ascii.eqb_spec c "&") as [->|_]; [reflexivity|].
  destruct (Ascii.eqb_spec c "<") as [->|_]; [reflexivity|].
  destruct (Ascii.eqb_spec c ">") as [->|_]; [reflexivity|].
  destruct (Ascii.eqb_spec c doubleQuote) as [->|_]; [reflexivity|].
  destruct (Ascii.eqb_spec c "'") as [->|_]; reflexivity.
Qed.

Lemma render_verbatimBlock (code : string) :
  renderToStaticMarkup (verbatimBlock code)
  = preStart +:+ leadingLineFeed "pre" code
      +:+ escapeTextForBrowser code +:+ "</pre>".
Proof.
  unfold renderToStaticMarkup, verbatimBlock, preStart.
  simpl String.eqb. cbv iota.
  cbn [renderNode isVoid voidElements existsb String.eqb Ascii.eqb Bool.eqb
       orb innerHTML getOwn ToString str map String.concat].
  rewrite !append_assoc. reflexivity.
Qed.

(** C7, as amended. With a non-empty language tag that the highlighter
    accepts, the code-block component returns a [pre] element whose content
    is the highlighter's markup, inserted as it is; with no language tag, or
    with an empty one, it returns a [pre] element holding the text itself,
    which the renderer escapes and nothing more; with a tag the highlighter
    rejects, it throws the highlighter's error. Whenever the highlighter's
    markup is not just the escaped text, the highlighted and the verbatim
    element serialize to different strings. *)
Theorem code_block (hljs_highlight : string -> string -> result string)
    (lang code html : string) :
  lang <> EmptyString ->
  hljs_highlight code lang = Ok html ->
  CodeBlock hljs_highlight {| language := Some lang; codeChildren := code |}
  = Ok (highlightedBlock html)
  /\ CodeBlock hljs_highlight {| language := None; codeChildren := code |}
     = Ok (verbatimBlock code)
  /\ CodeBlock hljs_highlight
       {| language := Some EmptyString; codeChildren := code |}
     = Ok (verbatimBlock code)
  /\ (forall rejected e,
        rejected <> EmptyString ->
        hljs_highlight code rejected = Throw e ->
        CodeBlock hljs_highlight
          {| language := Some rejected; codeChildren := code |} = Throw e)
  /\ renderToStaticMarkup (highlightedBlock html)
     = preStart +:+ leadingLineFeed "pre" html +:+ html +:+ "</pre>"
  /\ renderToStaticMarkup (verbatimBlock code)
     = preStart +:+ leadingLineFeed "pre" code
         +:+ escapeTextForBrowser code +:+ "</pre>"
  /\ (html <> escapeTextForBrowser code ->
      renderToStaticMarkup (highlightedBlock html)
      <> renderToStaticMarkup (verbatimBlock code)).
Proof.
  intros Hlang Hhl. repeat apply conj.
  - unfold CodeBlock; simpl.
    destruct (String.eqb_spec lang EmptyString) as [|_]; [contradiction|].
    simpl. now rewrite Hhl.
  - reflexivity.
  - reflexivity.
  - intros rejected e Hne Hthrow. unfold CodeBlock; simpl.
    destruct (String.eqb_spec rejected EmptyString) as [|_]; [contradiction|].
    simpl. now rewrite Hthrow.
  - apply render_highlightedBlock.
  - apply render_verbatimBlock.
  - intros Hdiff Heq. apply Hdiff.
    rewrite render_highlightedBlock, render_verbatimBlock in Heq.
    apply append_inj_r in Heq.
    rewrite <- !append_assoc in Heq. apply append_inj_l in Heq.
    rewrite <- (leadingLineFeed_escape "pre" code) in Heq.
    now apply leadingLineFeed_inj.
Qed.

Lemma code_block_sample :
  let hljs_highlight := fun code lang : string =>
    if String.eqb lang "js"
    then Ok ("<span class=hljs-keyword>" +:+ escapeTextForBrowser code +:+ "</span>")
    else Throw (ExternalError "Unknown language") in
  CodeBlock hljs_highlight {| language := Some "js"; codeChildren := "return" |}
  = Ok (highlightedBlock "<span class=hljs-keyword>return</span>")
  /\ CodeBlock hljs_highlight {| language := None; codeChildren := "return" |}
     = Ok (verbatimBlock "return")
  /\ CodeBlock hljs_highlight
       {| language := Some EmptyString; codeChildren := "return" |}
     = Ok (verbatimBlock "return")
  /\ (forall rejected e,
        rejected <> EmptyString ->
        hljs_highlight "return" rejected = Throw e ->
        CodeBlock hljs_highlight
          {| language := Some rejected; codeChildren := "return" |} = Throw e)
  /\ renderToStaticMarkup
       (highlightedBlock "<span class=hljs-keyword>return</span>")
     = preStart
         +:+ leadingLineFeed "pre" "<span class=hljs-keyword>return</span>"
         +:+ "<span class=hljs-keyword>return</span>" +:+ "</pre>"
  /\ renderToStaticMarkup (verbatimBlock "return")
     = preStart +:+ leadingLineFeed "pre" "return"
         +:+ escapeTextForBrowser "return" +:+ "</pre>"
  /\ ("<span class=hljs-keyword>return</span>" <> escapeTextForBrowser "return"
      -> renderToStaticMarkup
           (highlightedBlock "<span class=hljs-keyword>return</span>")
         <> renderToStaticMarkup (verbatimBlock "return")).
Proof.
  intros hljs_highlight.
  apply (code_block hljs_highlight "js" "return"
           "<span class=hljs-keyword>return</span>").
  - discriminate.
  - reflexivity.
Defined.

(** C7, as stated: a language tag is supplied in both cases below, yet no
    highlighted markup is rendered: the empty tag gives the verbatim
    element, and a tag the highlighter does not know makes the component
    throw. *)
Lemma tag_supplied_not_highlighted :
  CodeBlock Faults.only_js
    {| language := Some EmptyString; codeChildren := "return" |}
  = Ok (verbatimBlock "return")
  /\ CodeBlock Faults.only_js
       {| language := Some "klingon"; codeChildren := "return" |}
     = Throw (ExternalError "Unknown language").
Proof. split; reflexivity. Qed.

(** * Further properties of the pipeline *)

(** ** The expander without a template, and with several *)

Lemma ordinary_all (pages : list Page) :
  templatePage pages = None -> ordinary pages = pages.
Proof.
  unfold templatePage, ordinary.
  induction pages as [|p pages IH]; simpl; [reflexivity|].
  destruct (isTemplate p); simpl; [discriminate|].
  intros H. now rewrite IH.
Qed.

Lemma length_partition (pages : list Page) :
  length (filter isTemplate pages) + length (ordinary pages) = length pages.
Proof.
  unfold ordinary. induction pages as [|p pages IH]; simpl; [reflexivity|].
  destruct (isTemplate p); simpl; lia.
Qed.

(** X1. The template expander fails in exactly one situation: no loaded
    page has a bracket name while the catalog has at least one entry; the
    error is then the TypeError of reading [data] of undefined. *)
Theorem expandTemplate_throws (icons : obj) (pages : list Page) (e : exn) :
  expandTemplate icons pages = Throw e
  <-> (templatePage pages = None /\ Object_keys icons <> [] /\ e = TypeError).
Proof.
  split.
  - intros H. destruct (templatePage pages) as [t|] eqn:Ht.
    + rewrite (expandTemplate_found _ _ _ Ht) in H. discriminate.
    + rewrite (expandTemplate_missing _ _ Ht) in H.
      destruct (Object_keys icons); [discriminate|].
      inversion H. repeat split. discriminate.
  - intros (Ht & Hkeys & ->). rewrite (expandTemplate_missing _ _ Ht).
    destruct (Object_keys icons); [contradiction|reflexivity].
Qed.

(** X2. With no bracket page and an empty catalog the expander returns the
    loaded pages as they are. *)
Theorem expandTemplate_nothing_to_expand (icons : obj) (pages : list Page) :
  templatePage pages = None ->
  Object_keys icons = [] ->
  expandTemplate icons pages = Ok pages.
Proof.
  intros Ht Hkeys. rewrite (expandTemplate_missing _ _ Ht), Hkeys.
  now rewrite ordinary_all.
Qed.

Lemma expandTemplate_nothing_to_expand_sample :
  expandTemplate [] [ Sample.guide ] = Ok [ Sample.guide ].
Proof.
  apply (expandTemplate_nothing_to_expand [] [ Sample.guide ]); reflexivity.
Defined.

(** X3. Whenever a bracket page exists, however many, the expander returns
    as many pages as were loaded, less the bracket pages, plus one per
    catalog key. *)
Theorem expansion_count_general (icons : obj) (pages : list Page) (t : Page) :
  templatePage pages = Some t ->
  exists out,
    expandTemplate icons pages = Ok out
    /\ length out + length (filter isTemplate pages)
       = length pages + length (Object_keys icons).
Proof.
  intros Ht. rewrite (expandTemplate_found _ _ _ Ht).
  eexists; split; [reflexivity|].
  rewrite length_app, length_map. pose proof (length_partition pages). lia.
Qed.

Lemma expansion_count_general_sample :
  exists out,
    expandTemplate Sample.icons
      [ Sample.otherTemplate; Sample.guide; Sample.template ] = Ok out
    /\ length out + 2 = 3 + 2.
Proof.
  apply (expansion_count_general Sample.icons
           [ Sample.otherTemplate; Sample.guide; Sample.template ]
           Sample.otherTemplate).
  reflexivity.
Defined.

(** ** Metadata of derived pages *)

Lemma getOwn_None (o : obj) (key : string) :
  getOwn o key = None -> ~ In key (Object_keys o).
Proof.
  induction o as [|[k v] o IH]; simpl; [tauto|].
  destruct (String.eqb_spec k key); [discriminate|].
  intros H [Heq|Hin]; [congruence|]. now apply IH.
Qed.

Lemma Object_keys_set (o : obj) (key : string) (v : value) :
  Object_keys (set o key v)
  = match getOwn o key with
    | Some _ => Object_keys o
    | None => Object_keys o ++ [ key ]
    end.
Proof.
  induction o as [|[k w] o IH]; simpl; [reflexivity|].
  destruct (String.eqb_spec k key) as [->|Hne]; simpl; [reflexivity|].
  rewrite IH. now destruct (getOwn o key).
Qed.

Lemma wellFormed_set (o : obj) (key : string) (v : value) :
  wellFormed o -> wellFormed (set o key v).
Proof.
  unfold wellFormed. intros H. rewrite Object_keys_set.
  destruct (getOwn o key) eqn:E; [assumption|].
  apply NoDup_app; [assumption|repeat constructor; simpl; tauto|].
  intros a Ha [<-|[]]. now apply (getOwn_None _ _ E).
Qed.

(** X4. A derived page's metadata has the template's keys in the template's
    order, with [title] and then [icon] added at the end when the template
    lacks them; if the template's metadata has no key twice, neither has the
    derived page's. *)
Theorem derived_metadata_keys (icons : obj) (t : Page) (icon : string) :
  wellFormed (data t) ->
  wellFormed (data (derivedPage icons t icon))
  /\ Object_keys (data (derivedPage icons t icon))
     = Object_keys (data t)
         ++ match getOwn (data t) "title" with
            | Some _ => []
            | None => [ "title" ]
            end
         ++ match getOwn (data t) "icon" with
            | Some _ => []
            | None => [ "icon" ]
            end.
Proof.
  intros Hwf. unfold derivedPage, spread; simpl. split.
  - now apply wellFormed_set, wellFormed_set.
  - rewrite !Object_keys_set, getOwn_set_other by discriminate.
    destruct (getOwn (data t) "title"), (getOwn (data t) "icon");
      rewrite ?app_nil_r, <- ?app_assoc; reflexivity.
Qed.

Lemma derived_metadata_keys_sample :
  wellFormed (data (derivedPage Sample.icons Sample.template "star"))
  /\ Object_keys (data (derivedPage Sample.icons Sample.template "star"))
     = [ "layout"; "title" ] ++ [] ++ [ "icon" ].
Proof.
  apply (derived_metadata_keys Sample.icons Sample.template "star").
  unfold wellFormed. simpl. repeat constructor; simpl; intuition discriminate.
Defined.

(** ** The loader's filter and its failures *)

Lemma fromLastDot_append (base s e : string) :
  path.fromLastDot s = Some e -> path.fromLastDot (base +:+ s) = Some e.
Proof.
  intros H. induction base as [|c base IH]; simpl; [exact H|]. now rewrite IH.
Qed.

(** X5. The loader keeps exactly the entries made of a non-empty base name
    followed by [.mdx]; an entry named just [.mdx] is skipped. *)
Theorem loader_filter (file : string) :
  String.eqb (path.extname file) ".mdx" = true
  <-> exists base, base <> EmptyString /\ file = base +:+ ".mdx".
Proof.
  split.
  - intros H. apply String.eqb_eq in H.
    apply (extname_suffix _ _ H). discriminate.
  - intros (base & Hbase & ->). apply String.eqb_eq.
    unfold path.extname.
    rewrite (fromLastDot_append base ".mdx" ".mdx") by reflexivity.
    destruct (String.eqb_spec ".mdx" (base +:+ ".mdx")) as [E|_].
    + exfalso. apply (f_equal String.length) in E.
      rewrite length_append in E. simpl in E.
      destruct base; [now apply Hbase|simpl in E; lia].
    + destruct (String.eqb_spec (base +:+ ".mdx") "..") as [E|_]; [|reflexivity].
      exfalso. apply (f_equal String.length) in E.
      rewrite length_append in E. simpl in E. lia.
Qed.

Lemma mapM_ext {A B : Type} (f g : A -> result B) (l : list A) :
  (forall a, In a l -> f a = g a) -> mapM f l = mapM g l.
Proof.
  induction l as [|a l IH]; simpl; intros H; [reflexivity|].
  rewrite (H a) by now left. rewrite IH; [reflexivity|].
  intros; apply H. now right.
Qed.

Lemma mapM_throws {A B : Type} (f : A -> result B) (l : list A) (a : A)
    (e : exn) :
  In a l -> f a = Throw e -> exists e', mapM f l = Throw e'.
Proof.
  induction l as [|x l IH]; simpl; [easy|].
  intros [->|Hin] Hf.
  - rewrite Hf. simpl. eauto.
  - destruct (f x); simpl; [|eauto].
    destruct (IH Hin Hf) as [e' ->]. simpl. eauto.
Qed.

Section LoaderFaults.

Variable fs_readdir : string -> result (list string).
Variable fs_readFile : string -> result string.
Variable matter : string -> result (obj * string).

(** X6. A loaded page is taken for a template exactly when the name of its
    source file starts with a bracket. *)
Theorem template_by_source_name (folder : string) (entries : list string)
    (loaded : list Page) :
  fs_readdir folder = Ok entries ->
  loadPages fs_readdir fs_readFile matter folder = Ok loaded ->
  Forall2 (fun file p => isTemplate p = startsWith file "[")
          (filter (fun file => String.eqb (path.extname file) ".mdx") entries)
          loaded.
Proof.
  intros Hdir Hload.
  pose proof (loadPages_names _ _ _ _ _ _ Hdir Hload) as Hnamed.
  assert (Hmdx : Forall (fun file => isMdx file = true) (filter isMdx entries)).
  { apply Forall_forall. intros file Hin. now apply filter_In in Hin. }
  fold isMdx. clear Hdir Hload.
  induction Hnamed as [|file p files ps Hp _ IH]; constructor.
  - inversion Hmdx as [|? ? Hfile _]; subst.
    destruct Hp as (base & Hf & Hn). apply String.eqb_eq in Hfile.
    rewrite Hfile in Hf. unfold isTemplate.
    rewrite Hn, Hf. symmetry. apply startsWith_mdx_html.
  - apply IH. now inversion Hmdx.
Qed.

(** X7. One [.mdx] entry that cannot be read, or whose front matter cannot
    be parsed, makes the whole load fail: no page list is returned. *)
Theorem load_fails_on_one_file (folder : string) (entries : list string)
    (file : string) (e : exn) :
  fs_readdir folder = Ok entries ->
  In file entries ->
  String.eqb (path.extname file) ".mdx" = true ->
  (fs_readFile (path.join folder file) = Throw e
   \/ exists text,
        fs_readFile (path.join folder file) = Ok text
        /\ matter text = Throw e) ->
  exists e', loadPages fs_readdir fs_readFile matter folder = Throw e'.
Proof.
  intros Hdir Hin Hext Hfail. unfold loadPages. rewrite Hdir. simpl.
  rewrite Promise_all_map.
  apply (mapM_throws _ _ file e).
  - apply filter_In. auto.
  - unfold readMarkdownFile.
    destruct Hfail as [->|(text & -> & Hm)]; simpl; [reflexivity|].
    now rewrite Hm.
Qed.

(** X8. The loader reads no entry outside the [.mdx] ones: two file systems
    that agree on those give the same load. *)
Theorem load_reads_only_mdx (fs_readFile' : string -> result string)
    (folder : string) (entries : list string) :
  fs_readdir folder = Ok entries ->
  (forall file,
     In file entries ->
     String.eqb (path.extname file) ".mdx" = true ->
     fs_readFile (path.join folder file)
     = fs_readFile' (path.join folder file)) ->
  loadPages fs_readdir fs_readFile matter folder
  = loadPages fs_readdir fs_readFile' matter folder.
Proof.
  intros Hdir Hsame. unfold loadPages. rewrite Hdir. simpl.
  rewrite !Promise_all_map. apply mapM_ext.
  intros file Hin. apply filter_In in Hin. destruct Hin as [Hin Hext].
  unfold readMarkdownFile. now rewrite (Hsame file Hin Hext).
Qed.

End LoaderFaults.

Lemma template_by_source_name_sample :
  exists loaded,
    loadPages SampleFs.fs_readdir SampleFs.fs_readFile SampleFs.matter "pages"
    = Ok loaded
    /\ Forall2 (fun file p => isTemplate p = startsWith file "[")
         (filter (fun file => String.eqb (path.extname file) ".mdx")
                 [ "[slug].mdx"; "guide.mdx"; "notes.txt" ])
         loaded.
Proof.
  eexists. split; [reflexivity|].
  apply (template_by_source_name SampleFs.fs_readdir SampleFs.fs_readFile
           SampleFs.matter "pages" [ "[slug].mdx"; "guide.mdx"; "notes.txt" ]);
    reflexivity.
Defined.

Lemma load_fails_on_one_file_sample :
  exists e',
    loadPages SampleFs.fs_readdir Faults.guide_unreadable SampleFs.matter
      "pages" = Throw e'.
Proof.
  apply (load_fails_on_one_file SampleFs.fs_readdir Faults.guide_unreadable
           SampleFs.matter "pages" [ "[slug].mdx"; "guide.mdx"; "notes.txt" ]
           "guide.mdx" (ExternalError "EACCES")).
  - reflexivity.
  - simpl. tauto.
  - reflexivity.
  - left. reflexivity.
Defined.

Lemma load_reads_only_mdx_sample :
  loadPages SampleFs.fs_readdir SampleFs.fs_readFile SampleFs.matter "pages"
  = loadPages SampleFs.fs_readdir Faults.notes_unreadable SampleFs.matter
      "pages".
Proof.
  apply (load_reads_only_mdx SampleFs.fs_readdir SampleFs.fs_readFile
           SampleFs.matter Faults.notes_unreadable "pages"
           [ "[slug].mdx"; "guide.mdx"; "notes.txt" ]).
  - reflexivity.
  - intros file [<-|[<-|[<-|[]]]] Hext; try reflexivity. discriminate.
Defined.

(** ** The whole run *)

Lemma filter_filter {A : Type} (f g : A -> bool) (l : list A) :
  filter g (filter f l) = filter (fun a => f a && g a) l.
Proof.
  induction l as [|a l IH]; simpl; [reflexivity|].
  destruct (f a); simpl; [|exact IH]. destruct (g a); now rewrite IH.
Qed.

Lemma NoDup_app_disjoint {A : Type} (l1 l2 : list A) (a : A) :
  NoDup (l1 ++ l2) -> In a l1 -> In a l2 -> False.
Proof.
  induction l1 as [|x l1 IH]; simpl; [easy|].
  intros H [->|Hin] H2; inversion H as [|? ? Hnotin Hnd]; subst.
  - apply Hnotin, in_or_app. now right.
  - now apply IH.
Qed.

Lemma Forall2_In_l {A B : Type} (R : A -> B -> Prop) (l1 : list A)
    (l2 : list B) (a : A) :
  Forall2 R l1 l2 -> In a l1 -> exists b, In b l2 /\ R a b.
Proof.
  induction 1 as [|x y l1 l2 Hxy _ IH]; simpl; [easy|].
  intros [<-|Hin]; [eauto|]. destruct (IH Hin) as (b & Hb & HR). eauto.
Qed.

(** The names of the kept pages, read off the source files. *)
Lemma ordinary_names (files : list string) (loaded : list Page) :
  Forall (fun file => isMdx file = true) files ->
  Forall2 named files loaded ->
  map fileName (ordinary loaded)
  = map (fun file => path.basename file ".mdx" +:+ ".html")
        (filter (fun file => negb (startsWith file "[")) files).
Proof.
  intros Hmdx H. unfold ordinary.
  induction H as [|file p files ps Hp _ IH]; simpl; [reflexivity|].
  inversion Hmdx as [|? ? Hfile Hmdx']; subst.
  destruct Hp as (base & Hf & Hn). apply String.eqb_eq in Hfile.
  rewrite Hfile in Hf.
  assert (Htpl : isTemplate p = startsWith file "[").
  { unfold isTemplate. rewrite Hn, Hf. symmetry. apply startsWith_mdx_html. }
  rewrite Htpl. destruct (startsWith file "["); simpl; [now apply IH|].
  rewrite IH by assumption. f_equal.
  rewrite Hn. rewrite Hf at 1. now rewrite basename_mdx.
Qed.

Lemma finalPages_names (icons : obj)
    (fs_readdir : string -> result (list string))
    (fs_readFile : string -> result string)
    (matter : string -> result (obj * string))
    (folder : string) (entries : list string) (out : list Page) :
  fs_readdir folder = Ok entries ->
  finalPages icons fs_readdir fs_readFile matter folder = Ok out ->
  map fileName out
  = map (fun file => path.basename file ".mdx" +:+ ".html")
        (filter (fun file =>
                   String.eqb (path.extname file) ".mdx"
                   && negb (startsWith file "["))
                entries)
    ++ map (fun icon => icon +:+ ".html") (Object_keys icons).
Proof.
  intros Hdir Hfinal. unfold finalPages in Hfinal.
  destruct (loadPages fs_readdir fs_readFile matter folder) as [loaded|] eqn:Hload;
    simpl in Hfinal; [|discriminate].
  pose proof (loadPages_names _ _ _ _ _ _ Hdir Hload) as Hnamed.
  assert (Hmdx : Forall (fun file => isMdx file = true) (filter isMdx entries)).
  { apply Forall_forall. intros file Hin. now apply filter_In in Hin. }
  pose proof (ordinary_names _ _ Hmdx Hnamed) as Hord.
  rewrite filter_filter in Hord. fold isMdx.
  apply expandTemplate_inv in Hfinal.
  destruct (templatePage loaded) as [t|].
  - subst out. now rewrite map_app, derived_names, Hord.
  - destruct Hfinal as [Hkeys ->]. rewrite Hkeys, Hord. simpl.
    now rewrite app_nil_r.
Qed.

Section Run.

Variable pkg : Pkg.
Variable icons : obj.
Variable hljs_highlight : string -> string -> result string.
Variable fs_readdir : string -> result (list string).
Variable fs_readFile : string -> result string.
Variable fs_writeFile : string -> string -> result unit.
Variable matter : string -> result (obj * string).
Variable mdx_evaluate : string -> result (PageProps -> result node).
Variable cwd : string.

Lemma buildPage_inv (outputFolder : string) (info : BuildInfo)
    (all : list Page) (p : Page) (w : string * string) :
  buildPage pkg icons hljs_highlight fs_writeFile mdx_evaluate outputFolder
    info all p = Ok w ->
  exists pageComponent element,
    mdx_evaluate (content p) = Ok pageComponent
    /\ pageComponent
         {| pp_page := p;
            pp_components := pageComponents icons hljs_highlight;
            pp_icons := Object_values icons;
            pp_version := version pkg;
            pp_repository := get (repository pkg) "url";
            pp_downloadUrl :=
              ToString (get (repository pkg) "url") +:+ "/releases/download/v"
                +:+ version pkg +:+ "/icons.zip" |} = Ok element
    /\ fs_writeFile (path.join outputFolder (fileName p))
         (renderToStaticMarkup
            (PageWrapper pkg {| page := p; element := element;
                                pages := all; buildInfo := info |}))
       = Ok tt.
Proof.
  unfold buildPage. intros H.
  destruct (mdx_evaluate (content p)) as [c|]; simpl in H; [|discriminate].
  destruct (c _) as [el|] eqn:Hel; simpl in H; [|discriminate].
  destruct (fs_writeFile _ _) as [[]|] eqn:Hw; simpl in H; [|discriminate].
  exists c, el. auto.
Qed.

(** X9. In a run that succeeds, the pages built are one per [.mdx] entry
    outside the bracket convention, in listing order and named after the
    entry with [.html] for [.mdx], followed by one per catalog key, in key
    order, named after the key; and for each of them [fs.writeFile] was
    called, and succeeded, on [www/] followed by the page's name, with the
    serialized shell around the page's compiled element as text. *)
Theorem build_writes (info : BuildInfo) (entries : list string)
    (written : list (string * string)) :
  fs_readdir (path.join cwd "pages") = Ok entries ->
  build pkg icons hljs_highlight fs_readdir fs_readFile fs_writeFile matter
    mdx_evaluate cwd info = Ok written ->
  exists out,
    finalPages icons fs_readdir fs_readFile matter (path.join cwd "pages")
    = Ok out
    /\ map fileName out
       = map (fun file => path.basename file ".mdx" +:+ ".html")
             (filter (fun file =>
                        String.eqb (path.extname file) ".mdx"
                        && negb (startsWith file "["))
                     entries)
         ++ map (fun icon => icon +:+ ".html") (Object_keys icons)
    /\ Forall
         (fun p =>
            exists pageComponent element,
              mdx_evaluate (content p) = Ok pageComponent
              /\ pageComponent
                   {| pp_page := p;
                      pp_components := pageComponents icons hljs_highlight;
                      pp_icons := Object_values icons;
                      pp_version := version pkg;
                      pp_repository := get (repository pkg) "url";
                      pp_downloadUrl :=
                        ToString (get (repository pkg) "url")
                          +:+ "/releases/download/v"
                          +:+ version pkg +:+ "/icons.zip" |} = Ok element
              /\ fs_writeFile
                   (path.join (path.join cwd "www") (fileName p))
                   (renderToStaticMarkup
                      (PageWrapper pkg
                         {| page := p; element := element;
                            pages := out; buildInfo := info |}))
                 = Ok tt)
         out.
Proof.
  intros Hdir Hbuild. unfold build in Hbuild.
  destruct (finalPages icons fs_readdir fs_readFile matter (path.join cwd "pages"))
    as [out|] eqn:Hfinal; simpl in Hbuild; [|discriminate].
  exists out. split; [reflexivity|].
  split; [exact (finalPages_names _ _ _ _ _ _ _ Hdir Hfinal)|].
  unfold buildPromises in Hbuild. rewrite Promise_all_map in Hbuild.
  apply mapM_inv in Hbuild.
  apply Forall_forall. intros p Hp.
  destruct (Forall2_In_l _ _ _ _ Hbuild Hp) as (w & _ & Hw).
  exact (buildPage_inv _ _ _ _ _ Hw).
Qed.

(** X10. One page whose body does not compile makes the whole run fail. *)
Theorem build_fails_on_one_page (info : BuildInfo) (out : list Page)
    (p : Page) (e : exn) :
  finalPages icons fs_readdir fs_readFile matter (path.join cwd "pages")
  = Ok out ->
  In p out ->
  mdx_evaluate (content p) = Throw e ->
  exists e',
    build pkg icons hljs_highlight fs_readdir fs_readFile fs_writeFile matter
      mdx_evaluate cwd info = Throw e'.
Proof.
  intros Hfinal Hin Hmdx. unfold build. rewrite Hfinal. simpl.
  unfold buildPromises. rewrite Promise_all_map.
  apply (mapM_throws _ _ p e Hin).
  unfold buildPage. now rewrite Hmdx.
Qed.

End Run.

Lemma build_writes_sample :
  exists out,
    finalPages Sample.icons SampleFs.fs_readdir SampleFs.fs_readFile
      SampleFs.matter (path.join "site" "pages") = Ok out
    /\ map fileName out
       = map (fun file => path.basename file ".mdx" +:+ ".html")
             (filter (fun file =>
                        String.eqb (path.extname file) ".mdx"
                        && negb (startsWith file "["))
                     [ "[slug].mdx"; "guide.mdx"; "notes.txt" ])
         ++ map (fun icon => icon +:+ ".html") (Object_keys Sample.icons)
    /\ Forall
         (fun p =>
            exists pageComponent element,
              Faults.mdx_evaluate (content p) = Ok pageComponent
              /\ pageComponent
                   {| pp_page := p;
                      pp_components := pageComponents Sample.icons Faults.only_js;
                      pp_icons := Object_values Sample.icons;
                      pp_version := version Sample.pkg;
                      pp_repository := get (repository Sample.pkg) "url";
                      pp_downloadUrl :=
                        ToString (get (repository Sample.pkg) "url")
                          +:+ "/releases/download/v"
                          +:+ version Sample.pkg +:+ "/icons.zip" |}
                 = Ok element
              /\ Faults.fs_writeFile
                   (path.join (path.join "site" "www") (fileName p))
                   (renderToStaticMarkup
                      (PageWrapper Sample.pkg
                         {| page := p; element := element;
                            pages := out; buildInfo := Sample.buildInfo |}))
                 = Ok tt)
         out.
Proof.
  eapply (build_writes Sample.pkg Sample.icons Faults.only_js
            SampleFs.fs_readdir SampleFs.fs_readFile Faults.fs_writeFile
            SampleFs.matter Faults.mdx_evaluate "site" Sample.buildInfo);
    reflexivity.
Defined.

Lemma build_fails_on_one_page_sample :
  exists e',
    build Sample.pkg Sample.icons Faults.only_js SampleFs.fs_readdir
      SampleFs.fs_readFile Faults.fs_writeFile Faults.bang_bodies
      Faults.mdx_evaluate "site" Sample.buildInfo = Throw e'.
Proof.
  eapply (build_fails_on_one_page Sample.pkg Sample.icons Faults.only_js
            SampleFs.fs_readdir SampleFs.fs_readFile Faults.fs_writeFile
            Faults.bang_bodies Faults.mdx_evaluate "site" Sample.buildInfo).
  - reflexivity.
  - left. reflexivity.
  - reflexivity.
Defined.

(** ** When output names collide *)

(** X11. The condition of [output_names_unique] cannot be dropped: when a
    listed file outside the bracket convention is named k.mdx for a
    non-empty catalog key k, the final page list holds two pages named
    k.html, so one output file overwrites the other. *)
Theorem output_names_clash (icons : obj)
    (fs_readdir : string -> result (list string))
    (fs_readFile : string -> result string)
    (matter : string -> result (obj * string))
    (folder : string) (entries : list string) (out : list Page)
    (icon : string) :
  fs_readdir folder = Ok entries ->
  In icon (Object_keys icons) ->
  icon <> EmptyString ->
  In (icon +:+ ".mdx") entries ->
  startsWith (icon +:+ ".mdx") "[" = false ->
  finalPages icons fs_readdir fs_readFile matter folder = Ok out ->
  ~ NoDup (map fileName out).
Proof.
  intros Hdir Hicon Hne Hin Hbracket Hfinal Hnd. unfold finalPages in Hfinal.
  destruct (loadPages fs_readdir fs_readFile matter folder) as [loaded|] eqn:Hload;
    simpl in Hfinal; [|discriminate].
  pose proof (loadPages_names _ _ _ _ _ _ Hdir Hload) as Hnamed.
  assert (Hmdx : isMdx (icon +:+ ".mdx") = true).
  { apply loader_filter. eauto. }
  assert (Hfile : In (icon +:+ ".mdx") (filter isMdx entries)).
  { apply filter_In. auto. }
  destruct (Forall2_In_l _ _ _ _ Hnamed Hfile) as (p & Hp & base & Hf & Hn).
  apply String.eqb_eq in Hmdx. rewrite Hmdx in Hf.
  apply append_inj_l in Hf. subst base.
  apply expandTemplate_inv in Hfinal.
  destruct (templatePage loaded) as [t|].
  - subst out. rewrite map_app, derived_names in Hnd.
    apply (NoDup_app_disjoint _ _ (icon +:+ ".html") Hnd).
    + apply in_map_iff. exists p. split; [exact Hn|].
      apply ordinary_In. split; [exact Hp|].
      unfold isTemplate. now rewrite Hn, <- startsWith_mdx_html.
    + apply in_map_iff. eauto.
  - destruct Hfinal as [Hkeys _]. rewrite Hkeys in Hicon. contradiction.
Qed.

Lemma output_names_clash_sample :
  exists out,
    finalPages Sample.icons SampleFs.clashing_readdir SampleFs.fs_readFile
      SampleFs.matter "pages" = Ok out
    /\ ~ NoDup (map fileName out).
Proof.
  eexists. split; [reflexivity|].
  apply (output_names_clash Sample.icons SampleFs.clashing_readdir
           SampleFs.fs_readFile SampleFs.matter "pages"
           [ "[slug].mdx"; "star.mdx" ] _ "star").
  - reflexivity.
  - simpl. tauto.
  - discriminate.
  - simpl. tauto.
  - reflexivity.
  - reflexivity.
Defined.

(** ** Exactly when the icon component fails *)

(** X12. The icon component throws, and then a TypeError, exactly when the
    key is neither in the icon table nor a name inherited from
    [Object.prototype], or the entry under it is null or undefined; on every
    other key it returns a glyph. *)
Theorem icon_failure (icons : obj) (key : string) :
  (forall e,
     Icon icons {| icon := key |} = Throw e
     <-> e = TypeError
         /\ ((getOwn icons key = None /\ inherited key = false)
             \/ getOwn icons key = Some VUndefined
             \/ getOwn icons key = Some VNull))
  /\ ((exists e, Icon icons {| icon := key |} = Throw e)
      \/ exists d, Icon icons {| icon := key |} = Ok (glyph d)).
Proof.
  unfold Icon, get; simpl. split.
  - intros e. destruct (getOwn icons key) as [v|] eqn:Hown.
    + destruct v; simpl; split; intros H;
        try discriminate;
        try (inversion H; subst; split; [reflexivity|]; tauto);
        try (destruct H as [-> [[? _]|[?|?]]]; congruence).
    + destruct (inherited key); simpl; split; intros H.
      * discriminate.
      * destruct H as [_ [[_ ?]|[?|?]]]; discriminate.
      * inversion H. tauto.
      * now destruct H as [-> _].
  - destruct (getOwn icons key) as [v|].
    + destruct v; simpl; eauto.
    + destruct (inherited key); simpl; eauto.
Qed.

(** ** Edges of the code-block component *)

(** X13. An empty language tag counts as no tag: the text is rendered
    verbatim and the highlighter is not consulted. With a non-empty tag, an
    error thrown by the highlighter is thrown by the component. *)
Theorem code_block_edges (hljs_highlight : string -> string -> result string)
    (lang code : string) (e : exn) :
  lang <> EmptyString ->
  hljs_highlight code lang = Throw e ->
  CodeBlock hljs_highlight {| language := Some lang; codeChildren := code |}
  = Throw e
  /\ forall other : string -> string -> result string,
       CodeBlock other {| language := Some EmptyString; codeChildren := code |}
       = Ok (verbatimBlock code).
Proof.
  intros Hlang Hthrow. split; [|reflexivity].
  unfold CodeBlock; simpl.
  destruct (String.eqb_spec lang EmptyString) as [|_]; [contradiction|].
  simpl. now rewrite Hthrow.
Qed.

Lemma code_block_edges_sample :
  CodeBlock Faults.only_js {| language := Some "klingon"; codeChildren := "x" |}
  = Throw (ExternalError "Unknown language")
  /\ forall other : string -> string -> result string,
       CodeBlock other {| language := Some EmptyString; codeChildren := "x" |}
       = Ok (verbatimBlock "x").
Proof.
  apply (code_block_edges Faults.only_js "klingon" "x").
  - discriminate.
  - reflexivity.
Defined.

(** ** The shell around derived pages, and what it reads of package.json *)

(** X14. The document title of a derived page starts with the catalog key,
    whatever title the template's own metadata carries; for the empty key
    the prefix is left out. *)
Theorem derived_document_title (pkg : Pkg) (icons : obj) (t : Page)
    (icon : string) (el : node) (all : list Page) (info : BuildInfo) :
  documentTitle pkg {| page := derivedPage icons t icon; element := el;
                       pages := all; buildInfo := info |}
  = if String.eqb icon EmptyString
    then " josemi/icons " +:+ version pkg
    else icon +:+ " - " +:+ " josemi/icons " +:+ version pkg.
Proof.
  unfold documentTitle, derivedPage, spread; simpl.
  unfold get. rewrite getOwn_set_other by discriminate.
  rewrite getOwn_set_same. simpl.
  destruct (String.eqb icon EmptyString); simpl; [reflexivity|].
  now rewrite append_assoc.
Qed.

(** X15. Of package.json the page shell shows the version and the
    repository's [url] and nothing else: the header link, which is handed
    the [repository] object itself, is serialized the same for every
    repository. *)
Theorem shell_reads_version_and_url (pkg pkg' : Pkg) (props : WrapperProps) :
  version pkg = version pkg' ->
  get (repository pkg) "url" = get (repository pkg') "url" ->
  renderToStaticMarkup (PageWrapper pkg props)
  = renderToStaticMarkup (PageWrapper pkg' props).
Proof.
  intros Hversion Hurl.
  unfold PageWrapper, documentTitle. rewrite Hversion, Hurl. reflexivity.
Qed.

Lemma shell_reads_version_and_url_sample :
  renderToStaticMarkup
    (PageWrapper Sample.pkg
       {| page := Sample.guide; element := Text "Guide";
          pages := []; buildInfo := Sample.buildInfo |})
  = renderToStaticMarkup
      (PageWrapper
         {| version := "1.2.3";
            repository :=
              [ ("url", VStr "https://github.com/jmjuanes/fonticon");
                ("directory", VStr "packages/icons") ] |}
         {| page := Sample.guide; element := Text "Guide";
            pages := []; buildInfo := Sample.buildInfo |}).
Proof.
  apply (shell_reads_version_and_url Sample.pkg); reflexivity.
Defined.

(** ** The template's body in the run *)

Lemma build_throws (pkg : Pkg) (icons : obj)
    (hljs_highlight : string -> string -> result string)
    (fs_readdir : string -> result (list string))
    (fs_readFile : string -> result string)
    (fs_writeFile : string -> string -> result unit)
    (matter : string -> result (obj * string))
    (mdx_evaluate : string -> result (PageProps -> result node))
    (cwd : string) (info : BuildInfo) (out : list Page) (p : Page) (e : exn) :
  finalPages icons fs_readdir fs_readFile matter (path.join cwd "pages")
  = Ok out ->
  In p out ->
  buildPage pkg icons hljs_highlight fs_writeFile mdx_evaluate
    (path.join cwd "www") info out p = Throw e ->
  exists e',
    build pkg icons hljs_highlight fs_readdir fs_readFile fs_writeFile matter
      mdx_evaluate cwd info = Throw e'.
Proof.
  intros Hfinal Hin Hp. unfold build. rewrite Hfinal. simpl.
  unfold buildPromises. rewrite Promise_all_map.
  exact (mapM_throws _ _ p e Hin Hp).
Qed.

(** X16. The template page is not built itself, yet its body is what every
    derived page compiles: with at least one catalog entry, a template body
    that does not compile makes the run fail. *)
Theorem build_fails_on_template_body (pkg : Pkg) (icons : obj)
    (hljs_highlight : string -> string -> result string)
    (fs_readdir : string -> result (list string))
    (fs_readFile : string -> result string)
    (fs_writeFile : string -> string -> result unit)
    (matter : string -> result (obj * string))
    (mdx_evaluate : string -> result (PageProps -> result node))
    (cwd : string) (info : BuildInfo) (loaded : list Page) (t : Page)
    (e : exn) :
  loadPages fs_readdir fs_readFile matter (path.join cwd "pages") = Ok loaded ->
  templatePage loaded = Some t ->
  Object_keys icons <> [] ->
  mdx_evaluate (content t) = Throw e ->
  exists e',
    build pkg icons hljs_highlight fs_readdir fs_readFile fs_writeFile matter
      mdx_evaluate cwd info = Throw e'.
Proof.
  intros Hload Ht Hkeys Hmdx.
  destruct (Object_keys icons) as [|icon keys] eqn:Ekeys; [contradiction|].
  apply (build_throws pkg icons hljs_highlight fs_readdir fs_readFile
           fs_writeFile matter mdx_evaluate cwd info
           (ordinary loaded ++ map (derivedPage icons t) (icon :: keys))
           (derivedPage icons t icon) e).
  - unfold finalPages. rewrite Hload. simpl.
    rewrite (expandTemplate_found _ _ _ Ht). now rewrite Ekeys.
  - apply in_or_app. right. now left.
  - unfold buildPage. simpl. now rewrite Hmdx.
Qed.

Lemma build_fails_on_template_body_sample :
  exists e',
    build Sample.pkg Sample.icons Faults.only_js SampleFs.fs_readdir
      SampleFs.fs_readFile Faults.fs_writeFile Faults.bang_bodies
      Faults.mdx_evaluate "site" Sample.buildInfo = Throw e'.
Proof.
  eapply (build_fails_on_template_body Sample.pkg Sample.icons Faults.only_js
            SampleFs.fs_readdir SampleFs.fs_readFile Faults.fs_writeFile
            Faults.bang_bodies Faults.mdx_evaluate "site" Sample.buildInfo).
  - reflexivity.
  - reflexivity.
  - discriminate.
  - reflexivity.
Defined.
